(** * Trailagent: the tool-calling contract of the Snowflake agent

    A shallow embedding of [Toolkit.py] (the three tools) and of the
    completion client of [Agent.py].  Python strings are [string]s, a
    pandas frame is a record of rows of cells, and the warehouse connection
    is an explicit collaborator: a record of responses over a connection
    state.  Every request a tool sends to the connection is recorded in the
    world, so that statements about how often and with which text the
    connection is addressed are statements about that record. *)

From Stdlib Require Import String Ascii List Bool Arith ZArith Lia DecimalString.
Import ListNotations.
Open Scope string_scope.

(** ** Characters the source names *)

Definition nl : ascii := "010"%char.
Definition squote : ascii := "039"%char.
Definition dquote : ascii := "034"%char.
Definition backslash : ascii := "092"%char.
Definition comma : ascii := "044"%char.
Definition lbrace : ascii := "123"%char.
Definition rbrace : ascii := "125"%char.

Definition chr (c : ascii) : string := String c EmptyString.

(** ** Python values, exceptions and outcomes *)

(** A cell of a result set. *)
Inductive Value : Type :=
| VStr (s : string)
| VNum (z : Z)
| VNone.

(** [pandas.DataFrame]: the column labels and the rows. *)
Record DataFrame : Type := mkFrame {
  columns : list string;
  rows : list (list Value)
}.

(** An instance of Python's [Exception]: its class name and [str(e)].
    Interrupts (the part of [BaseException] outside [Exception]) are not
    modelled. *)
Record PyExc : Type := mkExc {
  exc_class : string;
  exc_str : string
}.

Inductive Outcome (A : Type) : Type :=
| Return (a : A)
| Raise (e : PyExc).
Arguments Return {A} a.
Arguments Raise {A} e.

(** ** The warehouse connection *)

(** What a tool can ask of the connection. *)
Inductive Request : Type :=
| ReadSql (sql : string)      (* pd.read_sql(sql, conn) *)
| Cursor                      (* conn.cursor() *)
| Execute (sql : string)      (* cursor.execute(sql) *)
| Close.                      (* cursor.close() *)

(** The connection as the tools see it.  [sfqid] is the attribute
    [cursor.sfqid]: a read of the state, not a request. *)
Record Connection (St : Type) : Type := mkConnection {
  read_sql : string -> St -> Outcome DataFrame * St;
  cursor : St -> Outcome unit * St;
  execute : string -> St -> Outcome unit * St;
  sfqid : St -> option string;
  close : St -> Outcome unit * St
}.
Arguments read_sql {St} _ _ _.
Arguments cursor {St} _ _.
Arguments execute {St} _ _ _.
Arguments sfqid {St} _ _.
Arguments close {St} _ _.

Inductive LogLevel : Type := INFO | ERROR.

(** The world a tool runs in: the connection's state, the requests sent so
    far (oldest first) and the records handed to the logger. *)
Record World (St : Type) : Type := mkWorld {
  conn_state : St;
  requests : list Request;
  log : list (LogLevel * string)
}.
Arguments mkWorld {St} _ _ _.
Arguments conn_state {St} _.
Arguments requests {St} _.
Arguments log {St} _.

(** ** The monad of Python code: state and exceptions *)

Definition Py (St A : Type) : Type := World St -> Outcome A * World St.

Definition ret {St A} (a : A) : Py St A := fun w => (Return a, w).

Definition raise {St A} (e : PyExc) : Py St A := fun w => (Raise e, w).

Definition bind {St A B} (c : Py St A) (k : A -> Py St B) : Py St B :=
  fun w =>
    match c w with
    | (Return a, w') => k a w'
    | (Raise e, w') => (Raise e, w')
    end.

(** [try: c  except Exception as e: h e] *)
Definition try_except {St A} (c : Py St A) (h : PyExc -> Py St A) : Py St A :=
  fun w =>
    match c w with
    | (Return a, w') => (Return a, w')
    | (Raise e, w') => h e w'
    end.

Declare Scope py_scope.
Delimit Scope py_scope with py.
Notation "x <- c ;; k" := (bind c (fun x => k))
  (at level 61, c at next level, right associativity) : py_scope.
Notation "c ;; k" := (bind c (fun _ => k))
  (at level 61, right associativity) : py_scope.
Open Scope py_scope.

(** Reading a global name of a module: [NameError] when the module does
    not bind it. *)
Definition load_global {St} (globals : list string) (name : string) : Py St unit :=
  if existsb (String.eqb name) globals
  then ret tt
  else raise (mkExc "NameError" ("name '" ++ name ++ "' is not defined")).

(** Sending a request: the connection answers from its state and the
    request is recorded. *)
Definition send {St A} (r : Request) (f : St -> Outcome A * St) : Py St A :=
  fun w =>
    let (o, s) := f (conn_state w) in
    (o, mkWorld s (requests w ++ [r]) (log w)).

(** Reading the attribute [cursor.sfqid]. *)
Definition read_sfqid {St} (conn : Connection St) : Py St (option string) :=
  fun w => (Return (sfqid conn (conn_state w)), w).

Definition emit {St} (lvl : LogLevel) (msg : string) : Py St unit :=
  fun w => (Return tt, mkWorld (conn_state w) (requests w) (log w ++ [(lvl, msg)])).

(** [str(x)] of an optional string, as an f-string renders it. *)
Definition str_opt (o : option string) : string :=
  match o with
  | Some s => s
  | None => "None"
  end.

(** The cell in the first row and first column, when there is one. *)
Definition first_cell (df : DataFrame) : option Value :=
  match rows df with
  | (v :: _) :: _ => Some v
  | _ => None
  end.

(** [df.iloc[0, 0]] *)
Definition iloc00 {St} (df : DataFrame) : Py St Value :=
  match first_cell df with
  | Some v => ret v
  | None => raise (mkExc "IndexError" "single positional indexer is out-of-bounds")
  end.

(** ** Python string operations *)

(** [s.split(sep)] for a one-character separator: one piece more than
    there are separators, empty pieces kept. *)
Fixpoint split (sep : ascii) (s : string) : list string :=
  match s with
  | EmptyString => [EmptyString]
  | String c s' =>
      if Ascii.eqb c sep then EmptyString :: split sep s'
      else match split sep s' with
           | w :: ws => String c w :: ws
           | [] => [chr c]
           end
  end.

(** [s.replace(old, new)] for a one-character [old]. *)
Fixpoint replace (old : ascii) (new : string) (s : string) : string :=
  match s with
  | EmptyString => EmptyString
  | String c s' =>
      if Ascii.eqb c old then new ++ replace old new s'
      else String c (replace old new s')
  end.

Fixpoint lookup_kw (name : string) (kwargs : list (string * string)) : option string :=
  match kwargs with
  | [] => None
  | (k, v) :: rest => if String.eqb k name then Some v else lookup_kw name rest
  end.

Definition is_digit (c : ascii) : bool :=
  let n := nat_of_ascii c in ((48 <=? n) && (n <=? 57))%nat.

Fixpoint all_digits (s : string) : bool :=
  match s with
  | EmptyString => true
  | String c s' => is_digit c && all_digits s'
  end.

Definition on_result {E A B} (f : A -> B) (r : E + A) : E + B :=
  match r with
  | inl e => inl e
  | inr a => inr (f a)
  end.

(** The value of the replacement field [{name}]: a keyword argument; an
    empty or numeric name is a positional index, and the call passes no
    positional argument. *)
Definition field_value (name : string) (kwargs : list (string * string)) : PyExc + string :=
  if all_digits name
  then inl (mkExc "IndexError"
              "Replacement index out of range for positional args tuple")
  else match lookup_kw name kwargs with
       | Some v => inr v
       | None => inl (mkExc "KeyError" ("'" ++ name ++ "'"))
       end.

(** [template.format] with keyword arguments: literal text is copied, doubled braces
    stand for one brace, [{name}] is replaced by the argument's text, which
    is not parsed again.  [field] holds the field name read so far when the
    scan is inside a replacement field.  Conversions and format
    specifications are outside the model (the template has none): a field
    name is looked up as it is written. *)
Fixpoint format_scan (kwargs : list (string * string)) (field : option string)
    (t : string) : PyExc + string :=
  match field, t with
  | None, EmptyString => inr EmptyString
  | Some _, EmptyString =>
      inl (mkExc "ValueError" "expected '}' before end of string")
  | Some name, String c t' =>
      if Ascii.eqb c rbrace then
        match field_value name kwargs with
        | inl e => inl e
        | inr v => on_result (append v) (format_scan kwargs None t')
        end
      else if Ascii.eqb c lbrace then
        inl (mkExc "ValueError" "unexpected '{' in field name")
      else format_scan kwargs (Some (name ++ chr c)) t'
  | None, String c t' =>
      if Ascii.eqb c lbrace then
        match t' with
        | EmptyString =>
            inl (mkExc "ValueError" "Single '{' encountered in format string")
        | String c2 t'' =>
            if Ascii.eqb c2 lbrace
            then on_result (String lbrace) (format_scan kwargs None t'')
            else format_scan kwargs (Some EmptyString) t'
        end
      else if Ascii.eqb c rbrace then
        match t' with
        | EmptyString =>
            inl (mkExc "ValueError" "Single '}' encountered in format string")
        | String c2 t'' =>
            if Ascii.eqb c2 rbrace
            then on_result (String rbrace) (format_scan kwargs None t'')
            else inl (mkExc "ValueError" "Single '}' encountered in format string")
        end
      else on_result (String c) (format_scan kwargs None t')
  end.

Definition str_format {St} (template : string) (kwargs : list (string * string))
  : Py St string :=
  match format_scan kwargs None template with
  | inr s => ret s
  | inl e => raise e
  end.

(** [str(v)] of a cell, as an f-string renders it. *)
Definition str_value (v : Value) : string :=
  match v with
  | VStr s => s
  | VNum z => NilEmpty.string_of_int (Z.to_int z)
  | VNone => "None"
  end.

(** ** Toolkit.py *)

Module Toolkit.

(** The names [Toolkit.py] binds at module level. *)
Definition globals : list string :=
  [ "logging"; "List"; "Optional"; "Type"; "Sequence"; "Dict"; "Any";
    "Union"; "Tuple"; "BaseLanguageModel"; "Field"; "BaseModel";
    "BaseToolkit"; "BaseTool"; "CallbackManagerForToolRun"; "pd"; "logger";
    "_InfoSQLDatabaseToolInput"; "InfoSnowflakeTableTool";
    "_QuerySQLCheckerToolInput"; "QuerySQLCheckerTool";
    "_QuerySQLDataBaseToolInput"; "QuerySQLDataBaseTool"; "AgentToolkit" ].

Section Tools.

Variable St : Type.
Variable conn : Connection St.
(** [DataFrame.to_string()], pandas' rendering of a frame. *)
Variable to_string : DataFrame -> string.

Definition logger_info (msg : string) : Py St unit :=
  load_global globals "logger" ;; emit INFO msg.

Definition logger_error (msg : string) : Py St unit :=
  load_global globals "logger" ;; emit ERROR msg.

Definition pd_read_sql (sql : string) : Py St DataFrame :=
  load_global globals "pd" ;; send (ReadSql sql) (read_sql conn sql).

(** [QuerySQLDataBaseTool._run] *)
Definition QuerySQLDataBaseTool_run (query : string)
  : Py St ((string + DataFrame) * option string) :=
  logger_info ("Executing query: " ++ query) ;;
  try_except
    (results <- pd_read_sql query ;;
     logger_info ("Query results:" ++ chr nl ++ to_string results) ;;
     send Cursor (cursor conn) ;;
     send (Execute query) (execute conn query) ;;
     query_id <- read_sfqid conn ;;
     send Close (close conn) ;;
     logger_info ("Query ID: " ++ str_opt query_id) ;;
     ret (inr results, query_id))
    (fun e =>
       let error_msg := "Error: " ++ exc_str e in
       logger_error error_msg ;;
       ret (inl error_msg, None)).

(** The body of the loop [for t in _table_names] of
    [InfoSnowflakeTableTool._run], with the accumulator [output_schema]. *)
Fixpoint schema_loop (_table_names : list string) (output_schema : string)
  : Py St string :=
  match _table_names with
  | [] => ret output_schema
  | t :: rest =>
      let query := "DESCRIBE TABLE " ++ t in
      logger_info ("Executing query: " ++ query) ;;
      schema <- pd_read_sql query ;;
      logger_info ("Schema for table " ++ t ++ ":" ++ chr nl ++ to_string schema) ;;
      schema_loop rest
        (output_schema ++ "Schema for table " ++ t ++ ":" ++ chr nl
           ++ to_string schema ++ chr nl ++ chr nl)
  end.

(** [InfoSnowflakeTableTool._run] *)
Definition InfoSnowflakeTableTool_run (table_names : string) : Py St string :=
  logger_info ("Getting schema for tables: " ++ table_names) ;;
  schema_loop (split comma table_names) EmptyString.

(** [QuerySQLCheckerTool.template], line by line. *)
Definition template : string :=
  String.concat (chr nl)
    [ EmptyString;
      "    {query}";
      "    Double check the {dialect} query above for common mistakes, including:";
      "    - Using NOT IN with NULL values";
      "    - Using UNION when UNION ALL should have been used";
      "    - Using BETWEEN for exclusive ranges";
      "    - Data type mismatch in predicates";
      "    - Properly quoting identifiers";
      "    - Using the correct number of arguments for functions";
      "    - Casting to the correct data type";
      "    - Using the proper columns for joins";
      EmptyString;
      "    If there are any of the above mistakes, rewrite the query. If there are no mistakes, just reproduce the original query.";
      EmptyString;
      "    Output the final SQL query only.";
      EmptyString;
      "    SQL Query: " ].

(** [escaped_query]: a backslash is put before every double quote, then
    before every single quote (two calls of [str.replace]). *)
Definition escape (query : string) : string :=
  replace squote (String backslash (chr squote))
    (replace dquote (String backslash (chr dquote)) query).

(** The text of the completion request around a prompt. *)
Definition cortex_open : string :=
  "SELECT SNOWFLAKE.CORTEX.COMPLETE('snowflake-arctic', '".
Definition cortex_close : string := "');".

(** [QuerySQLCheckerTool._run] *)
Definition QuerySQLCheckerTool_run (query : string) : Py St Value :=
  logger_info ("Checking query: " ++ query) ;;
  let escaped_query := escape query in
  prompt <- str_format template
              [("query", escaped_query); ("dialect", "Snowflake")] ;;
  let cortex_query := cortex_open ++ prompt ++ cortex_close in
  logger_info ("Executing Cortex query: " ++ cortex_query) ;;
  result <- pd_read_sql cortex_query ;;
  checked_query <- iloc00 result ;;
  logger_info ("Checked query result: " ++ str_value checked_query) ;;
  ret checked_query.

End Tools.

End Toolkit.

(** ** Agent.py *)

Module Agent.

(** The names [Agent.py] binds at module level: its imports, [logger] and
    its two classes.  The module has no [import pandas as pd]. *)
Definition globals : list string :=
  [ "logging"; "Dict"; "Any"; "List"; "Optional"; "AgentExecutor";
    "initialize_agent"; "LLM"; "ChatPromptTemplate"; "MessagesPlaceholder";
    "Tool"; "LLMChain"; "PromptTemplate"; "AgentToolkit"; "logger";
    "SnowflakeCortexLLM"; "Agent" ].

Section Client.

Variable St : Type.
Variable conn : Connection St.

Definition logger_info (msg : string) : Py St unit :=
  load_global globals "logger" ;; emit INFO msg.

Definition pd_read_sql (sql : string) : Py St DataFrame :=
  load_global globals "pd" ;; send (ReadSql sql) (read_sql conn sql).

(** [SnowflakeCortexLLM._call] *)
Definition SnowflakeCortexLLM_call (prompt : string) : Py St Value :=
  let query :=
    "SELECT SNOWFLAKE.CORTEX.COMPLETE('snowflake-arctic', '" ++ prompt ++ "');" in
  logger_info ("Executing Cortex query: " ++ query) ;;
  result <- pd_read_sql query ;;
  logged <- iloc00 result ;;
  logger_info ("Cortex inference result: " ++ str_value logged) ;;
  iloc00 result.

End Client.

End Agent.

(** ** The warehouse's reading of a string constant *)

(** Snowflake's single-quoted string constant, read from the character
    after the opening quote: a backslash takes the next character with it
    (an escape sequence), two single quotes in a row stand for one quote,
    and the first other single quote closes the constant.  The result is
    the text of the constant as written and the text after the closing
    quote; [None] when the input ends inside the constant. *)
Fixpoint scan_literal (s : string) : option (string * string) :=
  match s with
  | EmptyString => None
  | String c s' =>
      if Ascii.eqb c backslash then
        match s' with
        | EmptyString => None
        | String c2 s'' =>
            match scan_literal s'' with
            | Some (body, rest) => Some (String c (String c2 body), rest)
            | None => None
            end
        end
      else if Ascii.eqb c squote then
        match s' with
        | EmptyString => Some (EmptyString, EmptyString)
        | String c2 s'' =>
            if Ascii.eqb c2 squote then
              match scan_literal s'' with
              | Some (body, rest) => Some (String c (String c2 body), rest)
              | None => None
              end
            else Some (EmptyString, s')
        end
      else
        match scan_literal s' with
        | Some (body, rest) => Some (String c body, rest)
        | None => None
        end
  end.

(** [prompt], put between the quotes of the completion request, is one
    string constant: the constant opened by the last quote of
    [cortex_open] is closed by the quote of [cortex_close]. *)
Definition one_literal (prompt : string) : Prop :=
  scan_literal (prompt ++ Toolkit.cortex_close) = Some (prompt, ");").

(** No single quote of [q] stands directly after an odd number of
    backslashes; [pending] says that an odd number of backslashes has just
    been read. *)
Fixpoint quotes_guarded (pending : bool) (q : string) : bool :=
  match q with
  | EmptyString => true
  | String c q' =>
      if pending
      then if Ascii.eqb c squote then false else quotes_guarded false q'
      else if Ascii.eqb c backslash then quotes_guarded true q'
           else quotes_guarded false q'
  end.

(** [c] occurs in [s]. *)
Fixpoint occurs (c : ascii) (s : string) : bool :=
  match s with
  | EmptyString => false
  | String d s' => Ascii.eqb d c || occurs c s'
  end.

(** The prompt the checker builds around an escaped query: the template
    with its two fields filled in. *)
Definition prompt_head : string := String nl "    ".

Definition prompt_tail : string :=
  String.concat (chr nl)
    [ EmptyString;
      "    Double check the Snowflake query above for common mistakes, including:";
      "    - Using NOT IN with NULL values";
      "    - Using UNION when UNION ALL should have been used";
      "    - Using BETWEEN for exclusive ranges";
      "    - Data type mismatch in predicates";
      "    - Properly quoting identifiers";
      "    - Using the correct number of arguments for functions";
      "    - Casting to the correct data type";
      "    - Using the proper columns for joins";
      EmptyString;
      "    If there are any of the above mistakes, rewrite the query. If there are no mistakes, just reproduce the original query.";
      EmptyString;
      "    Output the final SQL query only.";
      EmptyString;
      "    SQL Query: " ].

Definition prompt_of (query : string) : string :=
  prompt_head ++ Toolkit.escape query ++ prompt_tail.

(** The request the checker sends for [query]. *)
Definition request_of (query : string) : string :=
  Toolkit.cortex_open ++ prompt_of query ++ Toolkit.cortex_close.

(** ** Vocabulary of the contract *)

Section Contract.

Variable St : Type.
Variable conn : Connection St.

(** Executing [query] fails with [e]: the first of the four requests of
    the execution tool that the connection refuses raises [e]. *)
Inductive execution_fails (query : string) (s : St) (e : PyExc) : Prop :=
| fails_read_sql s1 :
    read_sql conn query s = (Raise e, s1) -> execution_fails query s e
| fails_cursor df s1 s2 :
    read_sql conn query s = (Return df, s1) ->
    cursor conn s1 = (Raise e, s2) -> execution_fails query s e
| fails_execute df s1 s2 s3 :
    read_sql conn query s = (Return df, s1) ->
    cursor conn s1 = (Return tt, s2) ->
    execute conn query s2 = (Raise e, s3) -> execution_fails query s e
| fails_close df s1 s2 s3 s4 :
    read_sql conn query s = (Return df, s1) ->
    cursor conn s1 = (Return tt, s2) ->
    execute conn query s2 = (Return tt, s3) ->
    close conn s3 = (Raise e, s4) -> execution_fails query s e.

(** Executing [query] succeeds: the rows [df] come from the first
    submission, the identifier [id] is read from the cursor after the
    second. *)
Inductive execution_succeeds (query : string) (s : St) (df : DataFrame)
    (id : option string) : Prop :=
| succeeds s1 s2 s3 s4 :
    read_sql conn query s = (Return df, s1) ->
    cursor conn s1 = (Return tt, s2) ->
    execute conn query s2 = (Return tt, s3) ->
    id = sfqid conn s3 ->
    close conn s3 = (Return tt, s4) -> execution_succeeds query s df id.

(** The connection assigns an identifier to every statement a cursor
    executes. *)
Definition assigns_statement_ids : Prop :=
  forall sql s s', execute conn sql s = (Return tt, s') ->
    exists id, sfqid conn s' = Some id /\ id <> EmptyString.

(** The metadata-description requests for [names] succeed one after the
    other from state [s], giving the frames [dfs] and the state [s']. *)
Inductive described : list string -> St -> list DataFrame -> St -> Prop :=
| described_nil s : described [] s [] s
| described_cons t names s df s1 dfs s' :
    read_sql conn ("DESCRIBE TABLE " ++ t) s = (Return df, s1) ->
    described names s1 dfs s' ->
    described (t :: names) s (df :: dfs) s'.

(** The completion endpoint reproduces the query [q] it is shown: asked
    through the checker's request for [q], it answers with a frame whose
    first cell is the text [q]. *)
Definition reproduces_query (q : string) : Prop :=
  forall s, exists df s',
    read_sql conn (request_of q) s = (Return df, s')
    /\ first_cell df = Some (VStr q).

End Contract.

Arguments execution_fails {St} conn query s e.
Arguments execution_succeeds {St} conn query s df id.
Arguments assigns_statement_ids {St} conn.
Arguments described {St} conn _ _ _ _.
Arguments reproduces_query {St} conn q.

(** The output of the schema tool, section by section. *)
Definition header (t : string) : string := "Schema for table " ++ t ++ ":".

Definition section_text (to_string : DataFrame -> string) (t : string)
    (schema : DataFrame) : string :=
  header t ++ chr nl ++ to_string schema ++ chr nl ++ chr nl.

Fixpoint sections (to_string : DataFrame -> string) (names : list string)
    (dfs : list DataFrame) : string :=
  match names, dfs with
  | t :: names', df :: dfs' =>
      section_text to_string t df ++ sections to_string names' dfs'
  | _, _ => EmptyString
  end.

(** The lines of a text, and those of them that are section headers. *)
Definition lines (s : string) : list string := split nl s.

Definition is_header_line (l : string) : bool :=
  String.prefix "Schema for table " l.

Definition header_lines (s : string) : list string :=
  filter is_header_line (lines s).

(** The requests of one run of the schema tool. *)
Definition describe_requests (names : list string) : list Request :=
  map (fun t => ReadSql ("DESCRIBE TABLE " ++ t)) names.

(** ** Stub connections *)

(** A stub warehouse: it counts the statements it has executed and names
    each execution after its number. *)
Record StubState : Type := mkStub {
  executed : nat;
  cursor_sfqid : option string
}.

Definition stub_id (n : nat) : string :=
  "stub-id-" ++ NilEmpty.string_of_uint (Nat.to_uint n).

Definition compilation_error (sql : string) : PyExc :=
  mkExc "ProgrammingError" ("SQL compilation error: " ++ sql).

Definition stub (answer : string -> option DataFrame) : Connection StubState :=
  {| read_sql sql s :=
       match answer sql with
       | Some df => (Return df, mkStub (S (executed s)) (cursor_sfqid s))
       | None => (Raise (compilation_error sql), s)
       end;
     cursor s := (Return tt, mkStub (executed s) None);
     execute sql s :=
       match answer sql with
       | Some _ =>
           (Return tt, mkStub (S (executed s)) (Some (stub_id (S (executed s)))))
       | None => (Raise (compilation_error sql), s)
       end;
     sfqid s := cursor_sfqid s;
     close s := (Return tt, s) |}.

Definition id_frame : DataFrame :=
  mkFrame ["name"; "type"] [[VStr "ID"; VStr "NUMBER(38,0)"]].

Definition id_label_frame : DataFrame :=
  mkFrame ["name"; "type"]
    [[VStr "ID"; VStr "NUMBER(38,0)"]; [VStr "LABEL"; VStr "VARCHAR(16)"]].

Definition one_frame : DataFrame := mkFrame ["1"] [[VNum 1]].

Definition empty_answer : DataFrame := mkFrame ["COMPLETE"] [[VStr EmptyString]].

(** What the stub warehouse holds: one query and two tables, the second
    under the name with the blank that follows the comma in a list. *)
Definition warehouse (sql : string) : option DataFrame :=
  if String.eqb sql "SELECT 1" then Some one_frame
  else if String.eqb sql "DESCRIBE TABLE table1" then Some id_frame
  else if String.eqb sql "DESCRIBE TABLE  table2" then Some id_label_frame
  else None.

Definition fresh : World StubState := mkWorld (mkStub 0 None) [] [].

(** A plain rendering of a frame: the column labels, then one line per
    row. *)
Definition render (df : DataFrame) : string :=
  String.concat (chr nl)
    (String.concat " " (columns df)
       :: map (fun r => String.concat " " (map str_value r)) (rows df)).

(** [s] without its beginning [p], when it begins with [p]. *)
Fixpoint strip_prefix (p s : string) : option string :=
  match p, s with
  | EmptyString, _ => Some s
  | String a p', String b s' => if Ascii.eqb a b then strip_prefix p' s' else None
  | String _ _, EmptyString => None
  end.

(** [s] without its end [suf], when it ends with [suf]. *)
Fixpoint strip_suffix (suf s : string) : option string :=
  if String.eqb s suf then Some EmptyString
  else match s with
       | EmptyString => None
       | String c s' =>
           match strip_suffix suf s' with
           | Some r => Some (String c r)
           | None => None
           end
       end.

(** The backslash before a quote is dropped. *)
Fixpoint unescape (s : string) : string :=
  match s with
  | EmptyString => EmptyString
  | String c s' =>
      if Ascii.eqb c backslash then
        match s' with
        | String c2 s'' =>
            if Ascii.eqb c2 squote || Ascii.eqb c2 dquote
            then String c2 (unescape s'')
            else String c (unescape s')
        | EmptyString => chr c
        end
      else String c (unescape s')
  end.

(** A stub completion endpoint that reproduces the query of the request:
    it takes the text between the fixed parts of the request and drops
    the backslash the checker put before each quote. *)
Definition shown_query (sql : string) : option string :=
  match strip_prefix (Toolkit.cortex_open ++ prompt_head) sql with
  | Some rest =>
      match strip_suffix (prompt_tail ++ Toolkit.cortex_close) rest with
      | Some escaped => Some (unescape escaped)
      | None => None
      end
  | None => None
  end.

Definition echo : Connection unit :=
  {| read_sql sql s :=
       match shown_query sql with
       | Some q => (Return (mkFrame ["COMPLETE"] [[VStr q]]), s)
       | None => (Raise (compilation_error sql), s)
       end;
     cursor s := (Return tt, s);
     execute sql s := (Return tt, s);
     sfqid s := None;
     close s := (Return tt, s) |}.

Definition quiet : World unit := mkWorld tt [] [].

(** A stub that accepts every statement and answers it with the empty
    text. *)
Definition silent : Connection StubState := stub (fun _ => Some empty_answer).

(** A stub endpoint that begins its answer with the prompt it was given,
    as a completion that repeats its input does, and goes on with a
    query. *)
Definition prompt_in (sql : string) : option string :=
  match strip_prefix Toolkit.cortex_open sql with
  | Some rest => strip_suffix Toolkit.cortex_close rest
  | None => None
  end.

Definition parrot : Connection unit :=
  {| read_sql sql s :=
       match prompt_in sql with
       | Some prompt =>
           (Return (mkFrame ["COMPLETE"] [[VStr (prompt ++ "SELECT 1")]]), s)
       | None => (Raise (compilation_error sql), s)
       end;
     cursor s := (Return tt, s);
     execute sql s := (Return tt, s);
     sfqid s := None;
     close s := (Return tt, s) |}.

(** The output as the specification words it: the response, trimmed of
    the prompt it begins with. *)
Definition response_without_template (prompt response : string) : string :=
  match strip_prefix prompt response with
  | Some rest => rest
  | None => response
  end.

(** ** Vocabulary of the scan *)

(** What follows the escaped query in the completion request. *)
Definition request_tail : string := prompt_tail ++ Toolkit.cortex_close.

(** The constant was closed before the end of the prompt: text of the
    request up to [request_tail] at least is left over. *)
Definition closes_early (res : option (string * string)) : Prop :=
  exists body x, res = Some (body, x ++ request_tail).

(** The scan of a text [whole] followed by the closing of the request
    either reads [whole] as the constant, or closes early. *)
Definition scanned (guarded : bool) (whole : string)
    (res : option (string * string)) : Prop :=
  if guarded then res = Some (whole, ");") else closes_early res.

(** Text in which the scan finds nothing to act on. *)
Definition plain (s : string) : bool :=
  negb (occurs backslash s) && negb (occurs squote s).

(** The result of a scan, with [a] read before it. *)
Definition keep (a : string) (res : option (string * string))
  : option (string * string) :=
  match res with
  | Some (body, rest) => Some (a ++ body, rest)
  | None => None
  end.

(** ** Concrete inputs *)

(** A query that escapes a quote with a backslash of its own. *)
Definition its_query : string := "SELECT 'it" ++ String backslash "'s'".

(** A query with braces. *)
Definition brace_query : string := "SELECT OBJECT_CONSTRUCT('k', 1) AS {o}".

(** ** Vocabulary of the further properties *)

(** How often [c] occurs in [s]. *)
Fixpoint count_char (c : ascii) (s : string) : nat :=
  match s with
  | EmptyString => 0
  | String d s' => (if Ascii.eqb d c then 1 else 0) + count_char c s'
  end.

(** The quote characters of a text, single and double. *)
Definition quotes (s : string) : nat :=
  count_char squote s + count_char dquote s.

Definition is_quote (c : ascii) : bool :=
  Ascii.eqb c squote || Ascii.eqb c dquote.

(** Every quote of [s] stands directly after a backslash;
    [after_backslash] says that the character before [s] is one. *)
Fixpoint quotes_follow_backslash (after_backslash : bool) (s : string) : bool :=
  match s with
  | EmptyString => true
  | String c s' =>
      (if is_quote c then after_backslash else true)
      && quotes_follow_backslash (Ascii.eqb c backslash) s'
  end.

(** The texts logged at level [ERROR]. *)
Definition is_error (r : LogLevel * string) : bool :=
  match fst r with
  | ERROR => true
  | INFO => false
  end.

Definition error_texts (l : list (LogLevel * string)) : list string :=
  map snd (filter is_error l).

(** The error text of a result of the execution tool, if it is one. *)
Definition error_of (out : (string + DataFrame) * option string) : list string :=
  match fst out with
  | inl msg => [msg]
  | inr _ => []
  end.

(** A stub on which [pd.read_sql] works and a cursor's [execute] is
    refused. *)
Definition refuses_execute : Connection StubState :=
  {| read_sql := read_sql (stub warehouse);
     cursor := cursor (stub warehouse);
     execute sql s :=
       (Raise (mkExc "ProgrammingError" "Insufficient privileges"), s);
     sfqid := sfqid (stub warehouse);
     close := close (stub warehouse) |}.


(** A stub endpoint that hands back the text of the request between its
    fixed parts as it stands there, backslashes included. *)
Definition shown_text (sql : string) : option string :=
  match strip_prefix (Toolkit.cortex_open ++ prompt_head) sql with
  | Some rest => strip_suffix (prompt_tail ++ Toolkit.cortex_close) rest
  | None => None
  end.

Definition verbatim : Connection unit :=
  {| read_sql sql s :=
       match shown_text sql with
       | Some q => (Return (mkFrame ["COMPLETE"] [[VStr q]]), s)
       | None => (Raise (compilation_error sql), s)
       end;
     cursor s := (Return tt, s);
     execute sql s := (Return tt, s);
     sfqid s := None;
     close s := (Return tt, s) |}.

(** The endpoint hands back the escaped text of the request for [q]. *)
Definition repeats_escaped {St} (conn : Connection St) (q : string) : Prop :=
  forall s, exists df s',
    read_sql conn (request_of q) s = (Return df, s')
    /\ first_cell df = Some (VStr (Toolkit.escape q)).

(** ** Try.py *)

Module Try.

(** The names [Try.py] binds at module level before its first call of
    [cortex_inference]; [pd] is one of them. *)
Definition globals : list string :=
  [ "snowflake"; "pd"; "Dict"; "Any"; "List"; "Optional"; "LLM";
    "initialize_agent"; "Tool"; "LLMChain"; "PromptTemplate";
    "cortex_inference"; "SnowflakeCortexLLM"; "snowflake_llm";
    "get_word_length"; "word_length_tool"; "prompt_template"; "llm_chain";
    "agent" ].

(** A connection object as [cortex_inference] uses it: what [pd.read_sql]
    is given, and the object's own [close()]. *)
Record Session (St : Type) : Type := mkSession {
  session_conn : Connection St;
  session_close : St -> Outcome unit * St
}.
Arguments session_conn {St} _.
Arguments session_close {St} _ _.

Section Inference.

Variable St : Type.
(** [snowflake.connector.connect()] *)
Variable connect : St -> Outcome (Session St) * St.

(** An operation on the connector's state that is not a request of the
    tools' connection. *)
Definition on_state {A} (f : St -> Outcome A * St) : Py St A :=
  fun w =>
    let (o, s) := f (conn_state w) in
    (o, mkWorld s (requests w) (log w)).

Definition pd_read_sql (sql : string) (con : Session St) : Py St DataFrame :=
  load_global globals "pd" ;;
  send (ReadSql sql) (read_sql (session_conn con) sql).

(** [cortex_inference] *)
Definition cortex_inference (prompt : string) : Py St Value :=
  let query :=
    "SELECT SNOWFLAKE.CORTEX.COMPLETE('snowflake-arctic', '" ++ prompt ++ "');" in
  load_global globals "snowflake" ;;
  con <- on_state connect ;;
  result <- pd_read_sql query con ;;
  on_state (session_close con) ;;
  iloc00 result.

(** [SnowflakeCortexLLM._call] of [Try.py]; [stop] is not used. *)
Definition SnowflakeCortexLLM_call (prompt : string) (stop : option (list string))
  : Py St Value :=
  load_global globals "cortex_inference" ;;
  cortex_inference prompt.

End Inference.

End Try.

(** A stub connector: it counts the connections it has opened and those
    that have been closed, and every connection answers with one cell. *)
Record Pool : Type := mkPool {
  opened : nat;
  closed : nat
}.

Definition pool_connection (answer : string -> option DataFrame)
  : Connection Pool :=
  {| read_sql sql s :=
       match answer sql with
       | Some df => (Return df, s)
       | None => (Raise (compilation_error sql), s)
       end;
     cursor s := (Return tt, s);
     execute sql s := (Return tt, s);
     sfqid s := None;
     close s := (Return tt, s) |}.

Definition pool_session (answer : string -> option DataFrame)
  : Try.Session Pool :=
  Try.mkSession Pool (pool_connection answer)
    (fun s => (Return tt, mkPool (opened s) (S (closed s)))).

Definition pool_connect (answer : string -> option DataFrame) (s : Pool)
  : Outcome (Try.Session Pool) * Pool :=
  (Return (pool_session answer), mkPool (S (opened s)) (closed s)).

Definition always (df : DataFrame) (sql : string) : option DataFrame := Some df.

Definition idle : World Pool := mkWorld (mkPool 0 0) [] [].

(** * Properties *)

(** ** The monad, step by step *)

Lemma toolkit_logger_info St msg (w : World St) :
  Toolkit.logger_info St msg w
  = (Return tt, mkWorld (conn_state w) (requests w) (log w ++ [(INFO, msg)])).
Proof. reflexivity. Qed.

Lemma toolkit_logger_error St msg (w : World St) :
  Toolkit.logger_error St msg w
  = (Return tt, mkWorld (conn_state w) (requests w) (log w ++ [(ERROR, msg)])).
Proof. reflexivity. Qed.

Lemma toolkit_pd_read_sql St (conn : Connection St) sql (w : World St) :
  Toolkit.pd_read_sql St conn sql w
  = (fst (read_sql conn sql (conn_state w)),
     mkWorld (snd (read_sql conn sql (conn_state w)))
             (requests w ++ [ReadSql sql]) (log w)).
Proof.
  unfold Toolkit.pd_read_sql, bind, send; simpl.
  destruct (read_sql conn sql (conn_state w)); reflexivity.
Qed.

(** ** Query Execution Tool *)

Section ExecutionTool.

Variable St : Type.
Variable conn : Connection St.
Variable to_string : DataFrame -> string.

(** One of the two holds of every execution. *)
Lemma execution_decided query s :
  (exists e, execution_fails conn query s e)
  \/ (exists df id, execution_succeeds conn query s df id).
Proof.
  destruct (read_sql conn query s) as [[df | e] s1] eqn:H1;
    [| left; exists e; eapply fails_read_sql; eassumption].
  destruct (cursor conn s1) as [[[] | e] s2] eqn:H2;
    [| left; exists e; eapply fails_cursor; eassumption].
  destruct (execute conn query s2) as [[[] | e] s3] eqn:H3;
    [| left; exists e; eapply fails_execute; eassumption].
  destruct (close conn s3) as [[[] | e] s4] eqn:H4;
    [| left; exists e; eapply fails_close; eassumption].
  right; exists df, (sfqid conn s3). eapply succeeds; eauto.
Qed.

Lemma run_on_failure query w e :
  execution_fails conn query (conn_state w) e ->
  exists w', Toolkit.QuerySQLDataBaseTool_run St conn to_string query w = (Return (inl ("Error: " ++ exc_str e), None), w').
Proof.
  intros F. unfold Toolkit.QuerySQLDataBaseTool_run, bind, try_except.
  rewrite toolkit_logger_info, toolkit_pd_read_sql. simpl.
  destruct F as [s1 H1 | df s1 s2 H1 H2 | df s1 s2 s3 H1 H2 H3
                | df s1 s2 s3 s4 H1 H2 H3 H4];
    rewrite H1; simpl; unfold send; simpl;
    try rewrite H2; simpl; try rewrite H3; simpl; try rewrite H4; simpl;
    eexists; reflexivity.
Qed.

Lemma run_on_success query w df id :
  execution_succeeds conn query (conn_state w) df id ->
  exists w',
    Toolkit.QuerySQLDataBaseTool_run St conn to_string query w = (Return (inr df, id), w')
    /\ requests w'
       = (requests w ++ [ReadSql query; Cursor; Execute query; Close])%list.
Proof.
  intros [s1 s2 s3 s4 H1 H2 H3 -> H4].
  unfold Toolkit.QuerySQLDataBaseTool_run, bind, try_except.
  rewrite toolkit_logger_info, toolkit_pd_read_sql. simpl.
  rewrite H1; simpl; unfold send; simpl.
  rewrite H2; simpl. rewrite H3; simpl. rewrite H4; simpl.
  eexists; split; [reflexivity |]. simpl.
  repeat rewrite <- app_assoc. reflexivity.
Qed.

(** C1.  Whatever the query and whatever the connection answers, the
    execution tool returns a pair and raises nothing.  When the execution
    fails with [e], the pair is the text [Error: ] followed by the message
    of [e], and [None]; when it succeeds, the pair is the frame and the
    statement identifier, which is present and not empty on a connection
    that assigns identifiers to the statements it executes. *)
Theorem execution_tool_returns_pair :
  assigns_statement_ids conn ->
  forall query w,
    exists out w',
      Toolkit.QuerySQLDataBaseTool_run St conn to_string query w = (Return out, w')
      /\ ((exists e, execution_fails conn query (conn_state w) e)
          \/ (exists df id, execution_succeeds conn query (conn_state w) df id))
      /\ (forall e, execution_fails conn query (conn_state w) e ->
            out = (inl ("Error: " ++ exc_str e), None))
      /\ (forall df id, execution_succeeds conn query (conn_state w) df id ->
            out = (inr df, id)
            /\ exists i, id = Some i /\ i <> EmptyString).
Proof.
  intros Hids query w.
  destruct (execution_decided query (conn_state w)) as [[e F] | [df [id S]]].
  - destruct (run_on_failure _ _ _ F) as [w' R].
    exists (inl ("Error: " ++ exc_str e), None), w'.
    split; [exact R |]. split; [left; eauto |]. split.
    + intros e' F'. destruct (run_on_failure _ _ _ F') as [w'' R'].
      rewrite R in R'. inversion R'. reflexivity.
    + intros df id S. destruct (run_on_success _ _ _ _ S) as [w'' [R' _]].
      rewrite R in R'. discriminate.
  - destruct (run_on_success _ _ _ _ S) as [w' [R _]].
    exists (inr df, id), w'.
    split; [exact R |]. split; [right; eauto |]. split.
    + intros e F. destruct (run_on_failure _ _ _ F) as [w'' R'].
      rewrite R in R'. discriminate.
    + intros df' id' S'. destruct (run_on_success _ _ _ _ S') as [w'' [R' _]].
      rewrite R in R'. inversion R'; subst. split; [reflexivity |].
      destruct S' as [s1 s2 s3 s4 _ _ H3 -> _].
      exact (Hids _ _ _ H3).
Qed.

Lemma run_on_failure_requests query w e :
  execution_fails conn query (conn_state w) e ->
  exists out w' rest,
    Toolkit.QuerySQLDataBaseTool_run St conn to_string query w = (out, w')
    /\ requests w' = (requests w ++ ReadSql query :: rest)%list
    /\ incl rest [Cursor; Execute query; Close].
Proof.
  intros F. unfold Toolkit.QuerySQLDataBaseTool_run, bind, try_except.
  rewrite toolkit_logger_info, toolkit_pd_read_sql. simpl.
  destruct F as [s1 H1 | df s1 s2 H1 H2 | df s1 s2 s3 H1 H2 H3
                | df s1 s2 s3 s4 H1 H2 H3 H4];
    rewrite H1; simpl; unfold send; simpl;
    try rewrite H2; simpl; try rewrite H3; simpl; try rewrite H4; simpl;
    do 2 eexists.
  - exists []. split; [reflexivity |]. split; [reflexivity |].
    intros r [].
  - exists [Cursor]. split; [reflexivity |]. simpl.
    rewrite <- app_assoc. split; [reflexivity |].
    intros r [<- | []]; simpl; auto.
  - exists [Cursor; Execute query]. split; [reflexivity |]. simpl.
    repeat rewrite <- app_assoc. split; [reflexivity |].
    intros r [<- | [<- | []]]; simpl; auto.
  - exists [Cursor; Execute query; Close]. split; [reflexivity |]. simpl.
    repeat rewrite <- app_assoc. split; [reflexivity |].
    apply incl_refl.
Qed.

(** C6.  Whatever the text of the query, the execution tool sends it to
    the connection as it is: the first request of every run is
    [pd.read_sql] of the unchanged text, with no test of the statement
    before it, and every later request of the run is one of the cursor's,
    whose statement is again the unchanged text. *)
Theorem execution_tool_dispatches_unchanged :
  forall query w,
    exists out w' rest,
      Toolkit.QuerySQLDataBaseTool_run St conn to_string query w = (out, w')
      /\ requests w' = (requests w ++ ReadSql query :: rest)%list
      /\ incl rest [Cursor; Execute query; Close].
Proof.
  intros query w.
  destruct (execution_decided query (conn_state w)) as [[e F] | [df [id S]]].
  - exact (run_on_failure_requests _ _ _ F).
  - destruct (run_on_success _ _ _ _ S) as [w' [R T]].
    exists (Return (inr df, id)), w', [Cursor; Execute query; Close].
    split; [exact R |]. split; [exact T | apply incl_refl].
Qed.

(** C9.  A run of the execution tool that returns rows has submitted the
    query twice: the requests of the run are [pd.read_sql] of the query, a
    cursor, the cursor's [execute] of the same query, and the cursor's
    [close].  The rows returned are the answer to the first submission; the
    identifier returned is read from the cursor after the second. *)
Theorem execution_tool_submits_twice :
  forall query w df id w',
    Toolkit.QuerySQLDataBaseTool_run St conn to_string query w
    = (Return (inr df, id), w') ->
    requests w'
    = (requests w ++ [ReadSql query; Cursor; Execute query; Close])%list
    /\ exists s1 s2 s3,
         read_sql conn query (conn_state w) = (Return df, s1)
         /\ cursor conn s1 = (Return tt, s2)
         /\ execute conn query s2 = (Return tt, s3)
         /\ id = sfqid conn s3.
Proof.
  intros query w df id w' R.
  destruct (execution_decided query (conn_state w)) as [[e F] | [df' [id' S]]].
  - destruct (run_on_failure _ _ _ F) as [w'' R'].
    rewrite R in R'. discriminate.
  - destruct (run_on_success _ _ _ _ S) as [w'' [R' T]].
    rewrite R in R'. inversion R'; subst. split; [exact T |].
    destruct S as [s1 s2 s3 s4 H1 H2 H3 H4 _].
    exists s1, s2, s3. auto.
Qed.

End ExecutionTool.

Lemma stub_assigns_ids answer : assigns_statement_ids (stub answer).
Proof.
  intros sql s s' H. simpl in H.
  destruct (answer sql); inversion H; subst.
  eexists; split; [reflexivity | discriminate].
Qed.

Lemma execution_tool_returns_pair_witness :
  assigns_statement_ids (stub warehouse)
  /\ exists out w',
       Toolkit.QuerySQLDataBaseTool_run _ (stub warehouse) render "SELECT 1" fresh
       = (Return out, w')
       /\ ((exists e, execution_fails (stub warehouse) "SELECT 1" (conn_state fresh) e)
           \/ (exists df id,
                 execution_succeeds (stub warehouse) "SELECT 1" (conn_state fresh) df id))
       /\ (forall e, execution_fails (stub warehouse) "SELECT 1" (conn_state fresh) e ->
             out = (inl ("Error: " ++ exc_str e), None))
       /\ (forall df id,
             execution_succeeds (stub warehouse) "SELECT 1" (conn_state fresh) df id ->
             out = (inr df, id)
             /\ exists i, id = Some i /\ i <> EmptyString).
Proof.
  split.
  - apply stub_assigns_ids.
  - apply (execution_tool_returns_pair _ (stub warehouse) render
             (stub_assigns_ids warehouse) "SELECT 1" fresh).
Defined.

(** The second end-to-end scenario, on the stub: the rows of [SELECT 1] and
    the identifier of the second statement the stub executed. *)
Example select_1_on_stub :
  fst (Toolkit.QuerySQLDataBaseTool_run _ (stub warehouse) render "SELECT 1" fresh)
  = Return (inr one_frame, Some "stub-id-2").
Proof. reflexivity. Qed.

(** A statement the stub warehouse does not know comes back as an error
    text; a mutating statement on a stub that accepts everything is
    executed, twice, like any other. *)
Example unknown_statement_on_stub :
  fst (Toolkit.QuerySQLDataBaseTool_run _ (stub warehouse) render "SELEC 1" fresh)
  = Return (inl "Error: SQL compilation error: SELEC 1", None).
Proof. reflexivity. Qed.

Example drop_table_on_stub :
  fst (Toolkit.QuerySQLDataBaseTool_run _ silent render "DROP TABLE t" fresh)
  = Return (inr empty_answer, Some "stub-id-2")
  /\ requests (snd (Toolkit.QuerySQLDataBaseTool_run _ silent render
                      "DROP TABLE t" fresh))
     = [ReadSql "DROP TABLE t"; Cursor; Execute "DROP TABLE t"; Close].
Proof. split; reflexivity. Qed.

Lemma execution_tool_submits_twice_witness :
  Toolkit.QuerySQLDataBaseTool_run _ (stub warehouse) render "SELECT 1" fresh
  = (Return (inr one_frame, Some "stub-id-2"),
     snd (Toolkit.QuerySQLDataBaseTool_run _ (stub warehouse) render
            "SELECT 1" fresh))
  /\ requests (snd (Toolkit.QuerySQLDataBaseTool_run _ (stub warehouse) render
                      "SELECT 1" fresh))
     = (requests fresh
          ++ [ReadSql "SELECT 1"; Cursor; Execute "SELECT 1"; Close])%list
  /\ exists s1 s2 s3,
       read_sql (stub warehouse) "SELECT 1" (conn_state fresh)
       = (Return one_frame, s1)
       /\ cursor (stub warehouse) s1 = (Return tt, s2)
       /\ execute (stub warehouse) "SELECT 1" s2 = (Return tt, s3)
       /\ Some "stub-id-2" = sfqid (stub warehouse) s3.
Proof.
  split; [reflexivity |].
  apply (execution_tool_submits_twice _ (stub warehouse) render "SELECT 1"
           fresh one_frame (Some "stub-id-2")).
  reflexivity.
Defined.

(** ** Strings *)

Lemma append_assoc (a b c : string) : (a ++ b) ++ c = a ++ (b ++ c).
Proof. induction a as [| x a IH]; simpl; [reflexivity | now rewrite IH]. Qed.

Lemma append_nil_r (a : string) : a ++ EmptyString = a.
Proof. induction a as [| x a IH]; simpl; [reflexivity | now rewrite IH]. Qed.

Lemma length_append (a b : string) :
  String.length (a ++ b) = String.length a + String.length b.
Proof. induction a as [| x a IH]; simpl; [reflexivity | now rewrite IH]. Qed.

Lemma occurs_append c (a b : string) :
  occurs c (a ++ b) = occurs c a || occurs c b.
Proof.
  induction a as [| x a IH]; simpl; [reflexivity |].
  rewrite IH. apply orb_assoc.
Qed.

Lemma split_nonempty sep s : split sep s <> [].
Proof.
  destruct s as [| c s]; simpl; [discriminate |].
  destruct (Ascii.eqb c sep); [discriminate |].
  destruct (split sep s); discriminate.
Qed.

(** A text without the separator is one piece. *)
Lemma split_without sep s : occurs sep s = false -> split sep s = [s].
Proof.
  induction s as [| c s IH]; simpl; [reflexivity |].
  intros H. apply orb_false_iff in H as [Hc Hs].
  rewrite Hc, (IH Hs). reflexivity.
Qed.

(** Splitting at a separator splits the pieces. *)
Lemma split_at sep (a b : string) :
  split sep (a ++ String sep b) = (split sep a ++ split sep b)%list.
Proof.
  induction a as [| c a IH]; simpl.
  - rewrite Ascii.eqb_refl. reflexivity.
  - destruct (Ascii.eqb c sep); rewrite IH; [reflexivity |].
    destruct (split sep a) eqn:E; [now apply split_nonempty in E |].
    reflexivity.
Qed.

(** A character that is not in the text is in none of its pieces. *)
Lemma split_keeps_absent c sep s :
  occurs c s = false -> Forall (fun t => occurs c t = false) (split sep s).
Proof.
  induction s as [| x s IH]; simpl; intros H.
  - constructor; [reflexivity | constructor].
  - apply orb_false_iff in H as [Hx Hs]. specialize (IH Hs).
    destruct (Ascii.eqb x sep).
    + constructor; [reflexivity | exact IH].
    + destruct (split sep s) as [| p ps]; inversion IH; subst;
        constructor; simpl; rewrite ?Hx; auto.
Qed.

(** ** Schema Lookup Tool *)

Section SchemaTool.

Variable St : Type.
Variable conn : Connection St.
Variable to_string : DataFrame -> string.

Lemma described_length names s dfs s' :
  described conn names s dfs s' -> length dfs = length names.
Proof. induction 1; simpl; congruence. Qed.

(** The loop, when every description succeeds: the accumulator grows by
    one section per name. *)
Lemma schema_loop_described names s dfs s' :
  described conn names s dfs s' ->
  forall acc w, conn_state w = s ->
    exists w',
      Toolkit.schema_loop St conn to_string names acc w
      = (Return (acc ++ sections to_string names dfs), w')
      /\ conn_state w' = s'
      /\ requests w' = (requests w ++ describe_requests names)%list.
Proof.
  induction 1 as [s | t names s df s1 dfs s' H1 _ IH]; intros acc w Hw.
  - exists w. simpl. rewrite append_nil_r, app_nil_r. auto.
  - cbn [Toolkit.schema_loop]. unfold bind.
    rewrite toolkit_logger_info, toolkit_pd_read_sql.
    cbn [fst snd conn_state]. rewrite Hw, H1. cbn [fst snd].
    rewrite toolkit_logger_info. cbn [conn_state requests log].
    edestruct IH as [w' [R [C T]]]; [| rewrite R]; [reflexivity |].
    exists w'. split; [| split; [exact C |]].
    + f_equal. f_equal. cbn [sections]. unfold section_text, header.
      repeat rewrite append_assoc. reflexivity.
    + rewrite T. cbn [requests describe_requests map].
      rewrite <- app_assoc. reflexivity.
Qed.

(** The loop, when a description fails: the exception leaves the loop. *)
Lemma schema_loop_aborts before s dfs s1 :
  described conn before s dfs s1 ->
  forall t after e s2 acc w, conn_state w = s ->
    read_sql conn ("DESCRIBE TABLE " ++ t) s1 = (Raise e, s2) ->
    exists w',
      Toolkit.schema_loop St conn to_string (before ++ t :: after) acc w
      = (Raise e, w')
      /\ requests w' = (requests w ++ describe_requests (before ++ [t]))%list.
Proof.
  induction 1 as [s | t0 names s df s1' dfs s1 H1 _ IH];
    intros t after e s2 acc w Hw F.
  - cbn [app Toolkit.schema_loop]. unfold bind.
    rewrite toolkit_logger_info, toolkit_pd_read_sql.
    cbn [fst snd conn_state]. rewrite Hw, F. cbn [fst snd].
    eexists; split; reflexivity.
  - cbn [app Toolkit.schema_loop]. unfold bind.
    rewrite toolkit_logger_info, toolkit_pd_read_sql.
    cbn [fst snd conn_state]. rewrite Hw, H1. cbn [fst snd].
    rewrite toolkit_logger_info. cbn [conn_state requests log].
    edestruct (IH t after e s2) as [w' [R T]]; [| exact F | rewrite R];
      [reflexivity |].
    exists w'. split; [reflexivity |].
    rewrite T. cbn [requests describe_requests map app].
    rewrite <- app_assoc. reflexivity.
Qed.

Lemma lines_at (a b : string) :
  lines (a ++ String nl b) = (lines a ++ lines b)%list.
Proof. apply split_at. Qed.

Lemma header_is_header_line t : is_header_line (header t) = true.
Proof. apply prefix_correct. destruct t; reflexivity. Qed.

Lemma header_one_line t : occurs nl t = false -> lines (header t) = [header t].
Proof.
  intros H. apply split_without. unfold header.
  rewrite !occurs_append, H. reflexivity.
Qed.

(** The header lines of the sections are the headers of the names, when
    no name holds a line break and no rendered frame a header line. *)
Lemma header_lines_sections names :
  Forall (fun t => occurs nl t = false) names ->
  forall dfs,
    length dfs = length names ->
    Forall (fun df => header_lines (to_string df) = []) dfs ->
    header_lines (sections to_string names dfs) = map header names.
Proof.
  induction 1 as [| t names Ht _ IH]; intros dfs L R.
  - destruct dfs; [reflexivity | discriminate].
  - destruct dfs as [| df dfs]; [discriminate |].
    inversion R as [| ? ? Rdf Rdfs]; subst. simpl in L.
    assert (E : sections to_string (t :: names) (df :: dfs)
                = header t ++ String nl (to_string df
                    ++ String nl (EmptyString
                    ++ String nl (sections to_string names dfs)))).
    { cbn [sections]. unfold section_text, header, chr.
      repeat rewrite append_assoc. reflexivity. }
    rewrite E. unfold header_lines in *.
    rewrite !lines_at, !filter_app, (header_one_line _ Ht), Rdf.
    simpl filter at 1. rewrite header_is_header_line.
    rewrite IH by (auto; lia). reflexivity.
Qed.

(** C2.  On a list of table names written on one line, when the
    connection describes every listed table, the schema tool returns one
    text: the sections of the listed names in the order of the list, each
    made of the header [Schema for table t:] for the piece [t] between two
    commas (blanks around it included), the rendered description and an
    empty line.  When no rendered description holds a header line itself,
    the header lines of the output are exactly the headers of the listed
    names, one each and in order. *)
Theorem schema_tool_one_section_per_name :
  forall table_names w dfs s',
    occurs nl table_names = false ->
    described conn (split comma table_names) (conn_state w) dfs s' ->
    Forall (fun df => header_lines (to_string df) = []) dfs ->
    exists w',
      Toolkit.InfoSnowflakeTableTool_run St conn to_string table_names w
      = (Return (sections to_string (split comma table_names) dfs), w')
      /\ length dfs = length (split comma table_names)
      /\ header_lines (sections to_string (split comma table_names) dfs)
         = map header (split comma table_names)
      /\ requests w'
         = (requests w ++ describe_requests (split comma table_names))%list.
Proof.
  intros table_names w dfs s' Hnl D R.
  unfold Toolkit.InfoSnowflakeTableTool_run, bind.
  rewrite toolkit_logger_info.
  edestruct (schema_loop_described _ _ _ _ D EmptyString) as [w' [E [_ T]]];
    [| rewrite E]; [reflexivity |].
  exists w'. split; [reflexivity |].
  pose proof (described_length _ _ _ _ D) as L.
  split; [exact L |]. split; [| exact T].
  apply header_lines_sections; auto using split_keeps_absent.
Qed.

(** C5.  When the description of one listed table fails, the schema tool
    raises that failure and returns no text, not even the sections of the
    tables before it, whose descriptions had succeeded; the tables after
    it are not asked for. *)
Theorem schema_tool_aborts_on_first_failure :
  forall table_names w before t after dfs s1 e s2,
    split comma table_names = (before ++ t :: after)%list ->
    described conn before (conn_state w) dfs s1 ->
    read_sql conn ("DESCRIBE TABLE " ++ t) s1 = (Raise e, s2) ->
    exists w',
      Toolkit.InfoSnowflakeTableTool_run St conn to_string table_names w
      = (Raise e, w')
      /\ requests w' = (requests w ++ describe_requests (before ++ [t]))%list.
Proof.
  intros table_names w before t after dfs s1 e s2 Hsplit D F.
  unfold Toolkit.InfoSnowflakeTableTool_run, bind.
  rewrite toolkit_logger_info, Hsplit.
  edestruct (schema_loop_aborts _ _ _ _ D t after e s2 EmptyString)
    as [w' [E T]]; [| exact F | rewrite E]; [reflexivity |].
  exists w'. split; [reflexivity | exact T].
Qed.

End SchemaTool.

(** The first end-to-end scenario, on the stub: two descriptions, two
    sections; the second header carries the blank that follows the comma. *)
Example two_tables_on_stub :
  fst (Toolkit.InfoSnowflakeTableTool_run _ (stub warehouse) render
         "table1, table2" fresh)
  = Return
      (String.concat (chr nl)
         [ "Schema for table table1:";
           "name type";
           "ID NUMBER(38,0)";
           EmptyString;
           "Schema for table  table2:";
           "name type";
           "ID NUMBER(38,0)";
           "LABEL VARCHAR(16)";
           EmptyString;
           EmptyString ]).
Proof. reflexivity. Qed.

Lemma two_tables_described :
  described (stub warehouse) (split comma "table1, table2") (conn_state fresh)
    [id_frame; id_label_frame] (mkStub 2 None).
Proof.
  apply (described_cons _ _ "table1" [" table2"] _ _ (mkStub 1 None));
    [reflexivity |].
  apply (described_cons _ _ " table2" [] _ _ (mkStub 2 None));
    [reflexivity | constructor].
Defined.

Lemma schema_tool_one_section_per_name_witness :
  occurs nl "table1, table2" = false
  /\ described (stub warehouse) (split comma "table1, table2")
       (conn_state fresh) [id_frame; id_label_frame] (mkStub 2 None)
  /\ Forall (fun df => header_lines (render df) = [])
       [id_frame; id_label_frame]
  /\ exists w',
       Toolkit.InfoSnowflakeTableTool_run _ (stub warehouse) render
         "table1, table2" fresh
       = (Return (sections render (split comma "table1, table2")
                    [id_frame; id_label_frame]), w')
       /\ length [id_frame; id_label_frame]
          = length (split comma "table1, table2")
       /\ header_lines (sections render (split comma "table1, table2")
                          [id_frame; id_label_frame])
          = map header (split comma "table1, table2")
       /\ requests w'
          = (requests fresh
               ++ describe_requests (split comma "table1, table2"))%list.
Proof.
  split; [reflexivity |]. split; [exact two_tables_described |].
  split; [repeat constructor |].
  apply (schema_tool_one_section_per_name _ (stub warehouse) render
           "table1, table2" fresh [id_frame; id_label_frame] (mkStub 2 None)).
  - reflexivity.
  - exact two_tables_described.
  - repeat constructor.
Defined.

Lemma table1_described :
  described (stub warehouse) ["table1"] (conn_state fresh) [id_frame]
    (mkStub 1 None).
Proof.
  apply (described_cons _ _ "table1" [] _ _ (mkStub 1 None));
    [reflexivity | constructor].
Defined.

Lemma schema_tool_aborts_on_first_failure_witness :
  split comma "table1,missing, table2"
  = (["table1"] ++ "missing" :: [" table2"])%list
  /\ described (stub warehouse) ["table1"] (conn_state fresh) [id_frame]
       (mkStub 1 None)
  /\ read_sql (stub warehouse) ("DESCRIBE TABLE " ++ "missing") (mkStub 1 None)
     = (Raise (compilation_error "DESCRIBE TABLE missing"), mkStub 1 None)
  /\ exists w',
       Toolkit.InfoSnowflakeTableTool_run _ (stub warehouse) render
         "table1,missing, table2" fresh
       = (Raise (compilation_error "DESCRIBE TABLE missing"), w')
       /\ requests w'
          = (requests fresh
               ++ describe_requests (["table1"] ++ ["missing"]))%list.
Proof.
  split; [reflexivity |]. split; [exact table1_described |].
  split; [reflexivity |].
  apply (schema_tool_aborts_on_first_failure _ (stub warehouse) render
           "table1,missing, table2" fresh ["table1"] "missing" [" table2"]
           [id_frame] (mkStub 1 None)
           (compilation_error "DESCRIBE TABLE missing") (mkStub 1 None)).
  - reflexivity.
  - exact table1_described.
  - reflexivity.
Defined.

(** ** Query Checker Tool: the prompt *)

(** [str.format] fills the template's two fields and copies the query's
    text as it is, braces included. *)
Lemma prompt_built escaped :
  format_scan [("query", escaped); ("dialect", "Snowflake")] None Toolkit.template
  = inr (prompt_head ++ escaped ++ prompt_tail).
Proof. reflexivity. Qed.

Lemma escape_nil : Toolkit.escape EmptyString = EmptyString.
Proof. reflexivity. Qed.

Lemma escape_squote q :
  Toolkit.escape (String squote q)
  = String backslash (String squote (Toolkit.escape q)).
Proof. reflexivity. Qed.

Lemma escape_dquote q :
  Toolkit.escape (String dquote q)
  = String backslash (String dquote (Toolkit.escape q)).
Proof. reflexivity. Qed.

Lemma escape_other c q :
  Ascii.eqb c squote = false -> Ascii.eqb c dquote = false ->
  Toolkit.escape (String c q) = String c (Toolkit.escape q).
Proof.
  intros Hs Hd. unfold Toolkit.escape. simpl. rewrite Hd. simpl.
  rewrite Hs. reflexivity.
Qed.

(** A query without quotes is left as it is. *)
Lemma escape_without_quotes q :
  occurs squote q = false -> occurs dquote q = false -> Toolkit.escape q = q.
Proof.
  induction q as [| c q IH]; simpl; intros Hs Hd; [reflexivity |].
  apply orb_false_iff in Hs as [Hs Hs'], Hd as [Hd Hd'].
  rewrite escape_other, IH; auto.
Qed.

(** The checker's run, by what the connection answers to its one request. *)
Lemma checker_run St (conn : Connection St) query (w : World St) :
  exists lg,
    Toolkit.QuerySQLCheckerTool_run St conn query w
    = (match read_sql conn (request_of query) (conn_state w) with
       | (Return df, _) =>
           match first_cell df with
           | Some v => Return v
           | None =>
               Raise (mkExc "IndexError" "single positional indexer is out-of-bounds")
           end
       | (Raise e, _) => Raise e
       end,
       mkWorld (snd (read_sql conn (request_of query) (conn_state w)))
               (requests w ++ [ReadSql (request_of query)]) lg).
Proof.
  unfold Toolkit.QuerySQLCheckerTool_run, bind, str_format.
  rewrite toolkit_logger_info, prompt_built. unfold ret at 1.
  rewrite toolkit_logger_info, toolkit_pd_read_sql.
  cbn [conn_state requests log fst snd].
  change (Toolkit.cortex_open ++
          (prompt_head ++ Toolkit.escape query ++ prompt_tail) ++
          Toolkit.cortex_close) with (request_of query).
  destruct (read_sql conn (request_of query) (conn_state w)) as [[df | e] s1];
    cbn [fst snd]; [| eexists; reflexivity].
  unfold iloc00. destruct (first_cell df) as [v |].
  - unfold ret at 1. rewrite toolkit_logger_info. eexists; reflexivity.
  - eexists; reflexivity.
Qed.

(** ** Query Checker Tool: the run *)

Section CheckerTool.

Variable St : Type.
Variable conn : Connection St.

(** The run on an answered request. *)
Lemma checker_returns_cell query w df s1 v :
  read_sql conn (request_of query) (conn_state w) = (Return df, s1) ->
  first_cell df = Some v ->
  exists w',
    Toolkit.QuerySQLCheckerTool_run St conn query w = (Return v, w')
    /\ requests w' = (requests w ++ [ReadSql (request_of query)])%list
    /\ conn_state w' = s1.
Proof.
  intros A C.
  destruct (checker_run St conn query w) as [lg R].
  rewrite A, C in R. cbn [snd] in R.
  eexists; split; [exact R |]. split; reflexivity.
Qed.

(** C7, as the code has it.  Whatever the query, when the completion
    request is answered, the checker returns the first cell of the answer
    as it is: any text, the empty text and a null included, and nothing is
    taken away from it.  The run sends this one request and no other:
    there is no second attempt and no test of the answer. *)
Theorem checker_passes_response_through :
  forall query w df s1 v,
    read_sql conn (request_of query) (conn_state w) = (Return df, s1) ->
    first_cell df = Some v ->
    exists w',
      Toolkit.QuerySQLCheckerTool_run St conn query w = (Return v, w')
      /\ requests w' = (requests w ++ [ReadSql (request_of query)])%list
      /\ conn_state w' = s1.
Proof. intros query w df s1 v. apply checker_returns_cell. Qed.

(** C10, as the code has it.  Whatever the query, braces included, the
    construction of the prompt succeeds: [str.format] reads the fields of
    the template only and copies the escaped query into the prompt without
    reading it.  Every run of the checker therefore sends its completion
    request, with the query's braces in it. *)
Theorem checker_prompt_accepts_any_query :
  forall query w,
    format_scan [("query", Toolkit.escape query); ("dialect", "Snowflake")]
      None Toolkit.template
    = inr (prompt_head ++ Toolkit.escape query ++ prompt_tail)
    /\ exists out w',
         Toolkit.QuerySQLCheckerTool_run St conn query w = (out, w')
         /\ requests w'
            = (requests w
                 ++ [ReadSql (Toolkit.cortex_open
                                ++ (prompt_head ++ Toolkit.escape query ++ prompt_tail)
                                ++ Toolkit.cortex_close)])%list.
Proof.
  intros query w. split; [apply prompt_built |].
  destruct (checker_run St conn query w) as [lg R].
  do 2 eexists; split; [exact R | reflexivity].
Qed.

(** C8.  On an endpoint that reproduces the query it is shown, the checker
    returns the query it was given, so checking its own output again
    returns the same text. *)
Theorem checker_idempotent_on_reproducing_endpoint :
  forall query,
    reproduces_query conn query ->
    forall w,
      exists once w1 w2,
        Toolkit.QuerySQLCheckerTool_run St conn query w = (Return (VStr once), w1)
        /\ Toolkit.QuerySQLCheckerTool_run St conn once w1
           = (Return (VStr once), w2)
        /\ once = query.
Proof.
  intros query E w.
  destruct (E (conn_state w)) as [df [s1 [A C]]].
  destruct (checker_returns_cell query w df s1 (VStr query) A C)
    as [w1 [R1 _]].
  destruct (E (conn_state w1)) as [df' [s2 [A' C']]].
  destruct (checker_returns_cell query w1 df' s2 (VStr query) A' C')
    as [w2 [R2 _]].
  exists query, w1, w2. auto.
Qed.

End CheckerTool.

(** ** The stub endpoint reproduces the query *)

Lemma strip_prefix_append p s : strip_prefix p (p ++ s) = Some s.
Proof.
  induction p as [| a p IH]; simpl; [reflexivity |].
  rewrite Ascii.eqb_refl. exact IH.
Qed.

Lemma strip_suffix_append suf x : strip_suffix suf (x ++ suf) = Some x.
Proof.
  induction x as [| c x IH].
  - destruct suf; simpl; rewrite ?Ascii.eqb_refl, ?String.eqb_refl; reflexivity.
  - cbn [append strip_suffix]. rewrite IH.
    destruct (String.eqb_spec (String c (x ++ suf)) suf) as [E | _];
      [| reflexivity].
    apply (f_equal String.length) in E. simpl in E.
    rewrite length_append in E. lia.
Qed.

(** The escaped text never begins with a quote. *)
Lemma escape_head q c s :
  Toolkit.escape q = String c s ->
  Ascii.eqb c squote = false /\ Ascii.eqb c dquote = false.
Proof.
  destruct q as [| x q]; [discriminate |].
  destruct (Ascii.eqb x squote) eqn:Hs.
  - apply Ascii.eqb_eq in Hs; subst x. rewrite escape_squote.
    intros E; inversion E; subst. split; reflexivity.
  - destruct (Ascii.eqb x dquote) eqn:Hd.
    + apply Ascii.eqb_eq in Hd; subst x. rewrite escape_dquote.
      intros E; inversion E; subst. split; reflexivity.
    + rewrite escape_other by assumption.
      intros E; inversion E; subst. auto.
Qed.

Lemma unescape_escape q : unescape (Toolkit.escape q) = q.
Proof.
  induction q as [| x q IH]; [reflexivity |].
  destruct (Ascii.eqb x squote) eqn:Hs.
  { apply Ascii.eqb_eq in Hs; subst x. rewrite escape_squote.
    cbn. now rewrite IH. }
  destruct (Ascii.eqb x dquote) eqn:Hd.
  { apply Ascii.eqb_eq in Hd; subst x. rewrite escape_dquote.
    cbn. now rewrite IH. }
  rewrite escape_other by assumption.
  cbn [unescape]. destruct (Ascii.eqb x backslash) eqn:Hb.
  - destruct (Toolkit.escape q) as [| c s] eqn:E.
    + simpl in IH. now subst q.
    + destruct (escape_head _ _ _ E) as [Hc Hc'].
      rewrite Hc, Hc'. cbn [orb]. now rewrite IH.
  - now rewrite IH.
Qed.

Lemma request_of_parts q :
  request_of q
  = (Toolkit.cortex_open ++ prompt_head)
      ++ Toolkit.escape q ++ (prompt_tail ++ Toolkit.cortex_close).
Proof.
  unfold request_of, prompt_of. now rewrite !append_assoc.
Qed.

Lemma shown_query_request q : shown_query (request_of q) = Some q.
Proof.
  unfold shown_query.
  rewrite request_of_parts, strip_prefix_append, strip_suffix_append.
  now rewrite unescape_escape.
Qed.

(** The stub [echo] reproduces every query. *)
Lemma echo_reproduces q : reproduces_query echo q.
Proof.
  intros s. cbn [read_sql echo]. rewrite shown_query_request.
  do 2 eexists; split; reflexivity.
Qed.

Lemma checker_idempotent_on_reproducing_endpoint_witness :
  reproduces_query echo "SELECT 'a' FROM t"
  /\ exists once w1 w2,
       Toolkit.QuerySQLCheckerTool_run _ echo "SELECT 'a' FROM t" quiet
       = (Return (VStr once), w1)
       /\ Toolkit.QuerySQLCheckerTool_run _ echo once w1 = (Return (VStr once), w2)
       /\ once = "SELECT 'a' FROM t".
Proof.
  split.
  - exact (echo_reproduces "SELECT 'a' FROM t").
  - exact (checker_idempotent_on_reproducing_endpoint _ echo
             "SELECT 'a' FROM t" (echo_reproduces "SELECT 'a' FROM t") quiet).
Defined.

(** ** The prompt as a string constant *)

Lemma scan_plain a r :
  plain a = true -> scan_literal (a ++ r) = keep a (scan_literal r).
Proof.
  unfold plain. induction a as [| c a IH]; intros H.
  - simpl. destruct (scan_literal r) as [[b t] |]; reflexivity.
  - simpl in H. rewrite !negb_orb in H.
    apply andb_true_iff in H as [Hb Hq].
    apply andb_true_iff in Hb as [Hb Hb'], Hq as [Hq Hq'].
    apply negb_true_iff in Hb, Hq.
    cbn [append scan_literal]. rewrite Hb, Hq, IH.
    + destruct (scan_literal r) as [[b t] |]; reflexivity.
    + now rewrite Hb', Hq'.
Qed.

Lemma scan_escape_pair c r :
  scan_literal (String backslash (String c r))
  = keep (String backslash (chr c)) (scan_literal r).
Proof. reflexivity. Qed.

Lemma scan_other c r :
  Ascii.eqb c backslash = false -> Ascii.eqb c squote = false ->
  scan_literal (String c r) = keep (chr c) (scan_literal r).
Proof. intros Hb Hq. cbn [scan_literal]. now rewrite Hb, Hq. Qed.

Lemma scanned_keep g a whole res :
  scanned g whole res -> scanned g (a ++ whole) (keep a res).
Proof.
  destruct g; simpl.
  - intros ->. reflexivity.
  - intros [body [x ->]]. exists (a ++ body), x. reflexivity.
Qed.

Lemma closes_early_not_whole res whole :
  closes_early res -> res <> Some (whole, ");").
Proof.
  intros [body [x ->]] E. injection E as _ L.
  apply (f_equal String.length) in L.
  rewrite length_append in L. change (String.length ");") with 2 in L.
  assert (N : (2 <? String.length request_tail)%nat = true) by reflexivity.
  apply Nat.ltb_lt in N. lia.
Qed.

(** The request's tail is read to its end, also after a backslash. *)
Lemma scan_request_tail :
  scan_literal request_tail = Some (prompt_tail, ");").
Proof. reflexivity. Qed.

Lemma scan_request_tail_pending :
  scan_literal (String backslash request_tail)
  = Some (String backslash prompt_tail, ");").
Proof. reflexivity. Qed.

(** What follows a quote of the escaped query is never a quote. *)
Lemma after_quote q :
  exists c r,
    Toolkit.escape q ++ request_tail = String c r /\ Ascii.eqb c squote = false.
Proof.
  destruct (Toolkit.escape q) as [| c s] eqn:E.
  - eexists _, _. split; reflexivity.
  - exists c, (s ++ request_tail). split; [reflexivity |].
    exact (proj1 (escape_head _ _ _ E)).
Qed.

(** The scan of the escaped query, started on it or after one backslash. *)
Lemma scan_escaped q :
  scanned (quotes_guarded false q) (Toolkit.escape q ++ prompt_tail)
    (scan_literal (Toolkit.escape q ++ request_tail))
  /\ scanned (quotes_guarded true q)
       (String backslash (Toolkit.escape q ++ prompt_tail))
       (scan_literal (String backslash (Toolkit.escape q ++ request_tail))).
Proof.
  induction q as [| x q [IHn IHp]].
  - split; [exact scan_request_tail | exact scan_request_tail_pending].
  - destruct (Ascii.eqb x squote) eqn:Hs.
    { apply Ascii.eqb_eq in Hs; subst x. rewrite escape_squote. split.
      - cbn [append]. rewrite scan_escape_pair.
        apply (scanned_keep _ (String backslash (chr squote))). exact IHn.
      - cbn [append quotes_guarded]. rewrite Ascii.eqb_refl.
        rewrite scan_escape_pair.
        destruct (after_quote q) as [c [r [E Hc]]]. rewrite E.
        cbn [scan_literal]. rewrite Hc. cbn. rewrite <- E.
        exists (String backslash (chr backslash)), (Toolkit.escape q).
        reflexivity. }
    destruct (Ascii.eqb x dquote) eqn:Hd.
    { apply Ascii.eqb_eq in Hd; subst x. rewrite escape_dquote. split.
      - cbn [append]. rewrite scan_escape_pair.
        apply (scanned_keep _ (String backslash (chr dquote))). exact IHn.
      - cbn [append]. rewrite scan_escape_pair, scan_other by reflexivity.
        apply (scanned_keep _ (String backslash (chr backslash))).
        apply (scanned_keep _ (chr dquote)). exact IHn. }
    rewrite escape_other by assumption.
    destruct (Ascii.eqb x backslash) eqn:Hb.
    + apply Ascii.eqb_eq in Hb; subst x. split.
      * cbn [append quotes_guarded]. rewrite Ascii.eqb_refl. exact IHp.
      * cbn [append quotes_guarded]. rewrite scan_escape_pair.
        apply (scanned_keep _ (String backslash (chr backslash))). exact IHn.
    + split.
      * cbn [append quotes_guarded]. rewrite Hb, scan_other by assumption.
        apply (scanned_keep _ (chr x)). exact IHn.
      * cbn [append quotes_guarded]. rewrite Hs, scan_escape_pair.
        apply (scanned_keep _ (String backslash (chr x))). exact IHn.
Qed.

Lemma prompt_scanned q :
  scanned (quotes_guarded false q) (prompt_of q)
    (scan_literal (prompt_of q ++ Toolkit.cortex_close)).
Proof.
  unfold prompt_of.
  replace ((prompt_head ++ Toolkit.escape q ++ prompt_tail) ++ Toolkit.cortex_close)
    with (prompt_head ++ (Toolkit.escape q ++ request_tail))
    by (unfold request_tail; now rewrite !append_assoc).
  rewrite scan_plain by reflexivity.
  apply scanned_keep. exact (proj1 (scan_escaped q)).
Qed.

Lemma guarded_without_backslash q :
  occurs backslash q = false -> quotes_guarded false q = true.
Proof.
  induction q as [| c q IH]; simpl; intros H; [reflexivity |].
  apply orb_false_iff in H as [Hc Hq]. rewrite Hc. auto.
Qed.

(** X17.  The escaping is exact on the queries whose quotes are guarded:
    the prompt is one string constant of the completion request if and
    only if no single quote of the query stands directly after an odd
    number of backslashes. *)
Theorem prompt_one_literal_iff_guarded :
  forall query,
    one_literal (prompt_of query) <-> quotes_guarded false query = true.
Proof.
  intros query. pose proof (prompt_scanned query) as S.
  unfold one_literal.
  destruct (quotes_guarded false query); simpl in S.
  - split; auto.
  - split; [| discriminate].
    intros E. exfalso. exact (closes_early_not_whole _ _ S E).
Qed.

(** In particular the escaping does its work on every query without a
    backslash, whatever quotes it holds. *)
Corollary prompt_one_literal_without_backslash :
  forall query,
    occurs backslash query = false -> one_literal (prompt_of query).
Proof.
  intros query H. pose proof (prompt_scanned query) as S.
  rewrite (guarded_without_backslash _ H) in S. exact S.
Qed.

(** C3, at a query that itself escapes a quote with a backslash.  The
    query [SELECT 'it\'s'] holds single quotes; the checker puts a second
    backslash before the escaped quote, the warehouse reads the two
    backslashes as one escaped backslash, and the quote after them closes
    the constant inside the prompt: the request's constant ends after
    [it\\], and the rest of the query and of the prompt is left over as
    text of the statement. *)
Theorem escaping_breaks_after_backslash :
  occurs squote its_query = true
  /\ Toolkit.escape its_query
     = "SELECT " ++ String backslash "'it"
         ++ String backslash (String backslash "'s") ++ String backslash "'"
  /\ format_scan [("query", Toolkit.escape its_query); ("dialect", "Snowflake")]
       None Toolkit.template = inr (prompt_of its_query)
  /\ ~ one_literal (prompt_of its_query)
  /\ scan_literal (prompt_of its_query ++ Toolkit.cortex_close)
     = Some (prompt_head ++ "SELECT " ++ String backslash "'it"
               ++ String backslash (chr backslash),
             "s" ++ String backslash "'" ++ request_tail).
Proof.
  split; [reflexivity |]. split; [reflexivity |]. split; [reflexivity |].
  split; [| reflexivity].
  intros E. unfold one_literal in E. vm_compute in E. discriminate E.
Qed.

(** C10, at a query with braces: the checker builds its prompt, sends the
    request and returns the endpoint's answer; nothing is raised. *)
Theorem checker_brace_query_is_sent :
  occurs lbrace brace_query = true
  /\ occurs rbrace brace_query = true
  /\ fst (Toolkit.QuerySQLCheckerTool_run unit echo brace_query quiet)
     = Return (VStr brace_query)
  /\ requests (snd (Toolkit.QuerySQLCheckerTool_run unit echo brace_query quiet))
     = [ReadSql (request_of brace_query)]
  /\ ~ (exists e w',
          Toolkit.QuerySQLCheckerTool_run unit echo brace_query quiet
          = (Raise e, w')
          /\ requests w' = []).
Proof.
  assert (R : fst (Toolkit.QuerySQLCheckerTool_run unit echo brace_query quiet)
              = Return (VStr brace_query)) by reflexivity.
  repeat split; try reflexivity.
  intros [e [w' [E _]]]. rewrite E in R. discriminate R.
Qed.

(** C7, at an answer that repeats the prompt before the query: the
    checker returns the answer whole, prompt included, where the claim has
    the answer without the prompt. *)
Theorem checker_keeps_prompt_of_answer :
  fst (Toolkit.QuerySQLCheckerTool_run unit parrot "SELECT 1" quiet)
  = Return (VStr (prompt_of "SELECT 1" ++ "SELECT 1"))
  /\ response_without_template (prompt_of "SELECT 1")
       (prompt_of "SELECT 1" ++ "SELECT 1") = "SELECT 1"
  /\ fst (Toolkit.QuerySQLCheckerTool_run unit parrot "SELECT 1" quiet)
     <> Return (VStr (response_without_template (prompt_of "SELECT 1")
                        (prompt_of "SELECT 1" ++ "SELECT 1"))).
Proof.
  split; [reflexivity |]. split; [reflexivity |].
  intros E. vm_compute in E. discriminate E.
Qed.

Lemma checker_passes_response_through_witness :
  read_sql silent (request_of "SELECT 1") (conn_state fresh)
  = (Return empty_answer, mkStub 1 None)
  /\ first_cell empty_answer = Some (VStr EmptyString)
  /\ exists w',
       Toolkit.QuerySQLCheckerTool_run _ silent "SELECT 1" fresh
       = (Return (VStr EmptyString), w')
       /\ requests w' = (requests fresh ++ [ReadSql (request_of "SELECT 1")])%list
       /\ conn_state w' = mkStub 1 None.
Proof.
  split; [reflexivity |]. split; [reflexivity |].
  apply (checker_passes_response_through _ silent "SELECT 1" fresh empty_answer
           (mkStub 1 None) (VStr EmptyString)); reflexivity.
Defined.

(** ** Completion Client *)

(** C4, on the code.  [Agent.py] reads the name [pd] and does not bind it:
    every call of the completion client raises [NameError] at
    [pd.read_sql], after the request text has been built and logged, and
    the connection receives no request. *)
Theorem completion_client_raises_name_error :
  forall St (conn : Connection St) prompt w,
    exists w',
      Agent.SnowflakeCortexLLM_call St conn prompt w
      = (Raise (mkExc "NameError" "name 'pd' is not defined"), w')
      /\ requests w' = requests w
      /\ conn_state w' = conn_state w.
Proof.
  intros St conn prompt w. eexists. split; [reflexivity |].
  split; reflexivity.
Qed.

(** [Toolkit.py], which makes the same call, binds the name; [Agent.py]
    does not. *)
Example toolkit_binds_pd :
  existsb (String.eqb "pd") Toolkit.globals = true
  /\ existsb (String.eqb "pd") Agent.globals = false.
Proof. split; reflexivity. Qed.

Example completion_client_on_echo :
  fst (Agent.SnowflakeCortexLLM_call unit echo "Hello" quiet)
  = Raise (mkExc "NameError" "name 'pd' is not defined")
  /\ requests (snd (Agent.SnowflakeCortexLLM_call unit echo "Hello" quiet)) = [].
Proof. split; reflexivity. Qed.

(** * Further properties *)

(** ** Schema Lookup Tool: every run *)

Section SchemaToolRuns.

Variable St : Type.
Variable conn : Connection St.
Variable to_string : DataFrame -> string.

(** The descriptions of a list of names either all succeed or have a
    first failure. *)
Lemma described_decided names :
  forall s,
    (exists dfs s', described conn names s dfs s')
    \/ (exists before t after dfs s1 e s2,
          names = (before ++ t :: after)%list
          /\ described conn before s dfs s1
          /\ read_sql conn ("DESCRIBE TABLE " ++ t) s1 = (Raise e, s2)).
Proof.
  induction names as [| t names IH]; intros s.
  - left. exists [], s. constructor.
  - destruct (read_sql conn ("DESCRIBE TABLE " ++ t) s) as [[df | e] s1] eqn:H.
    + destruct (IH s1) as [[dfs [s' D]]
                          | [before [t' [after [dfs [s2 [e [s3 [E [D F]]]]]]]]]].
      * left. exists (df :: dfs), s'. econstructor; eassumption.
      * right. exists (t :: before), t', after, (df :: dfs), s2, e, s3.
        split; [now rewrite E |]. split; [| exact F].
        econstructor; eassumption.
    + right. exists [], t, names, [], s, e, s1.
      split; [reflexivity |]. split; [constructor | exact H].
Qed.

Lemma described_functional names s dfs s' :
  described conn names s dfs s' ->
  forall dfs2 s2, described conn names s dfs2 s2 -> dfs2 = dfs /\ s2 = s'.
Proof.
  induction 1 as [s | t names s df s1 dfs s' H1 _ IH]; intros dfs2 s2 D2.
  - inversion D2; subst. auto.
  - inversion D2 as [| ? ? ? df2 s1' dfs2' ? H1' D2']; subst.
    rewrite H1 in H1'. injection H1' as <- <-.
    destruct (IH _ _ D2') as [-> ->]. auto.
Qed.

Lemma described_append a s da s1 :
  described conn a s da s1 ->
  forall b db s2, described conn b s1 db s2 ->
    described conn (a ++ b) s (da ++ db) s2.
Proof.
  induction 1 as [s | t names s df s1' dfs s1 H1 _ IH]; intros b db s2 D.
  - exact D.
  - cbn [app]. econstructor; [exact H1 | now apply IH].
Qed.

Lemma sections_append a da b db :
  length da = length a ->
  sections to_string (a ++ b) (da ++ db)
  = sections to_string a da ++ sections to_string b db.
Proof.
  revert da. induction a as [| t a IH]; intros [| df da] L;
    try discriminate; [reflexivity |].
  cbn [app sections]. rewrite IH by (simpl in L; lia).
  now rewrite append_assoc.
Qed.

(** The run of the tool on described names. *)
Lemma schema_run_described table_names w dfs s' :
  described conn (split comma table_names) (conn_state w) dfs s' ->
  exists w',
    Toolkit.InfoSnowflakeTableTool_run St conn to_string table_names w
    = (Return (sections to_string (split comma table_names) dfs), w')
    /\ conn_state w' = s'
    /\ requests w'
       = (requests w ++ describe_requests (split comma table_names))%list.
Proof.
  intros D. unfold Toolkit.InfoSnowflakeTableTool_run, bind.
  rewrite toolkit_logger_info.
  edestruct (schema_loop_described St conn to_string _ _ _ _ D EmptyString)
    as [w' [E [C T]]];
    [| rewrite E]; [reflexivity |].
  exists w'. auto.
Qed.

(** The run of the tool on names whose description fails at [t]. *)
Lemma schema_run_aborted table_names w before t after dfs s1 e s2 :
  split comma table_names = (before ++ t :: after)%list ->
  described conn before (conn_state w) dfs s1 ->
  read_sql conn ("DESCRIBE TABLE " ++ t) s1 = (Raise e, s2) ->
  exists w',
    Toolkit.InfoSnowflakeTableTool_run St conn to_string table_names w
    = (Raise e, w')
    /\ requests w' = (requests w ++ describe_requests (before ++ [t]))%list.
Proof.
  intros Hsplit D F. unfold Toolkit.InfoSnowflakeTableTool_run, bind.
  rewrite toolkit_logger_info, Hsplit.
  edestruct (schema_loop_aborts St conn to_string _ _ _ _ D t after e s2 EmptyString)
    as [w' [E T]]; [| exact F | rewrite E]; [reflexivity |].
  exists w'. split; [reflexivity | exact T].
Qed.

(** X1.  Every run of the schema tool ends in one of two ways: it returns
    the sections of all the listed names, every description having
    succeeded, or it raises the failure of the first description that
    fails.  It never returns a text with some of the sections only. *)
Theorem schema_tool_all_or_nothing :
  forall table_names w,
    (exists dfs s' w',
       described conn (split comma table_names) (conn_state w) dfs s'
       /\ Toolkit.InfoSnowflakeTableTool_run St conn to_string table_names w
          = (Return (sections to_string (split comma table_names) dfs), w'))
    \/ (exists before t after dfs s1 e s2 w',
          split comma table_names = (before ++ t :: after)%list
          /\ described conn before (conn_state w) dfs s1
          /\ read_sql conn ("DESCRIBE TABLE " ++ t) s1 = (Raise e, s2)
          /\ Toolkit.InfoSnowflakeTableTool_run St conn to_string table_names w
             = (Raise e, w')).
Proof.
  intros table_names w.
  destruct (described_decided (split comma table_names) (conn_state w))
    as [[dfs [s' D]] | [before [t [after [dfs [s1 [e [s2 [E [D F]]]]]]]]]].
  - left. destruct (schema_run_described _ _ _ _ D) as [w' [R _]].
    exists dfs, s', w'. auto.
  - right. destruct (schema_run_aborted _ _ _ _ _ _ _ _ _ E D F) as [w' [R _]].
    exists before, t, after, dfs, s1, e, s2, w'. auto.
Qed.

Lemma length_split sep s : length (split sep s) = count_char sep s + 1.
Proof.
  induction s as [| c s IH]; [reflexivity |].
  cbn [split count_char]. destruct (Ascii.eqb c sep).
  - cbn [length]. rewrite IH. lia.
  - destruct (split sep s) as [| p ps] eqn:E; [now apply split_nonempty in E |].
    cbn [length] in *. lia.
Qed.

Lemma firstn_through {A} (before : list A) t after :
  firstn (length before + 1) (before ++ t :: after) = (before ++ [t])%list.
Proof.
  induction before as [| x before IH]; [reflexivity |].
  cbn. now rewrite IH.
Qed.

Lemma describe_requests_append a b :
  describe_requests (a ++ b)
  = (describe_requests a ++ describe_requests b)%list.
Proof. apply map_app. Qed.

(** X2.  Every run of the schema tool, whatever its end, sends at least
    one request, the empty list of names included, and at most one more
    than the list has commas.  Its requests are descriptions of the first
    pieces of the list, in order and with the text of each piece as it is
    written; a run that returns has described every piece. *)
Theorem schema_tool_requests :
  forall table_names w,
    exists out w' k,
      Toolkit.InfoSnowflakeTableTool_run St conn to_string table_names w
      = (out, w')
      /\ 1 <= k <= count_char comma table_names + 1
      /\ requests w'
         = (requests w
              ++ describe_requests (firstn k (split comma table_names)))%list
      /\ (forall text, out = Return text ->
            k = count_char comma table_names + 1).
Proof.
  intros table_names w.
  pose proof (length_split comma table_names) as L.
  destruct (described_decided (split comma table_names) (conn_state w))
    as [[dfs [s' D]] | [before [t [after [dfs [s1 [e [s2 [E [D F]]]]]]]]]].
  - destruct (schema_run_described _ _ _ _ D) as [w' [R [_ T]]].
    exists (Return (sections to_string (split comma table_names) dfs)), w',
      (count_char comma table_names + 1).
    split; [exact R |]. split; [lia |]. split; [| reflexivity].
    rewrite <- L, firstn_all. exact T.
  - destruct (schema_run_aborted _ _ _ _ _ _ _ _ _ E D F) as [w' [R T]].
    exists (Raise e), w', (length before + 1).
    split; [exact R |]. split; [| split; [| discriminate]].
    + rewrite <- L, E, length_app. cbn [length]. lia.
    + rewrite E, firstn_through. exact T.
Qed.

(** X4.  Looking up a list made of two lists with a comma between them is
    looking up the first and then the second: when the two runs return, the
    run on the joined list returns the two texts one after the other and
    leaves the connection, and the record of requests, as the second run
    does. *)
Theorem schema_tool_composes :
  forall a b w oa w1 ob w2,
    Toolkit.InfoSnowflakeTableTool_run St conn to_string a w = (Return oa, w1) ->
    Toolkit.InfoSnowflakeTableTool_run St conn to_string b w1 = (Return ob, w2) ->
    exists w',
      Toolkit.InfoSnowflakeTableTool_run St conn to_string
        (a ++ String comma b) w
      = (Return (oa ++ ob), w')
      /\ conn_state w' = conn_state w2
      /\ requests w' = requests w2.
Proof.
  intros a b w oa w1 ob w2 Ra Rb.
  destruct (described_decided (split comma a) (conn_state w))
    as [[da [sa Da]] | [before [t [after [dfs [s1 [e [s2 [E [D F]]]]]]]]]];
    [| destruct (schema_run_aborted _ _ _ _ _ _ _ _ _ E D F) as [w' [R _]];
       rewrite R in Ra; discriminate].
  destruct (schema_run_described _ _ _ _ Da) as [wa [Ra' [Ca Ta]]].
  rewrite Ra in Ra'. injection Ra' as -> <-.
  destruct (described_decided (split comma b) (conn_state w1))
    as [[db [sb Db]] | [before [t [after [dfs [s1 [e [s2 [E [D F]]]]]]]]]];
    [| destruct (schema_run_aborted _ _ _ _ _ _ _ _ _ E D F) as [w' [R _]];
       rewrite R in Rb; discriminate].
  destruct (schema_run_described _ _ _ _ Db) as [wb [Rb' [Cb Tb]]].
  rewrite Rb in Rb'. injection Rb' as -> <-.
  rewrite Ca in Db.
  pose proof (described_append _ _ _ _ Da _ _ _ Db) as Dab.
  rewrite <- split_at in Dab.
  destruct (schema_run_described _ _ _ _ Dab) as [w' [R [C T]]].
  exists w'. split; [| split].
  - rewrite R, split_at, sections_append; [reflexivity |].
    exact (described_length _ _ _ _ _ _ Da).
  - now rewrite C, Cb.
  - rewrite T, Tb, Ta, split_at, describe_requests_append.
    now rewrite app_assoc.
Qed.

(** X5.  A failure in the first part of a list is the failure of the
    joined list: the run raises the same exception after the same
    requests, and the second part is not looked at. *)
Theorem schema_tool_first_part_fails :
  forall a b w e w1,
    Toolkit.InfoSnowflakeTableTool_run St conn to_string a w = (Raise e, w1) ->
    exists w',
      Toolkit.InfoSnowflakeTableTool_run St conn to_string
        (a ++ String comma b) w
      = (Raise e, w')
      /\ requests w' = requests w1.
Proof.
  intros a b w e w1 Ra.
  destruct (described_decided (split comma a) (conn_state w))
    as [[da [sa Da]] | [before [t [after [dfs [s1 [e' [s2 [E [D F]]]]]]]]]].
  - destruct (schema_run_described _ _ _ _ Da) as [wa [Ra' _]].
    rewrite Ra in Ra'. discriminate.
  - destruct (schema_run_aborted _ _ _ _ _ _ _ _ _ E D F) as [wa [Ra' Ta]].
    rewrite Ra in Ra'. injection Ra' as -> <-.
    assert (Eab : split comma (a ++ String comma b)
                  = (before ++ t :: (after ++ split comma b))%list).
    { rewrite split_at, E, <- app_assoc. reflexivity. }
    destruct (schema_run_aborted _ _ _ _ _ _ _ _ _ Eab D F) as [w' [R T]].
    exists w'. split; [exact R | now rewrite T, Ta].
Qed.

End SchemaToolRuns.

(** X3.  The pieces the schema tool iterates over are the input cut at its
    commas and nothing else: joined again with commas they are the input,
    none of them holds a comma, and there is one more of them than the
    input has commas.  No piece is trimmed and no empty piece is dropped. *)
Theorem split_is_cut_at_separators :
  forall sep s,
    String.concat (chr sep) (split sep s) = s
    /\ Forall (fun piece => occurs sep piece = false) (split sep s)
    /\ length (split sep s) = count_char sep s + 1.
Proof.
  intros sep s. split; [| split; [| apply length_split]].
  - induction s as [| c s IH]; [reflexivity |].
    cbn [split]. destruct (Ascii.eqb c sep) eqn:Hc.
    + apply Ascii.eqb_eq in Hc; subst c.
      destruct (split sep s) as [| p ps] eqn:E; [now apply split_nonempty in E |].
      cbn [String.concat] in *. now rewrite IH.
    + destruct (split sep s) as [| p ps] eqn:E; [now apply split_nonempty in E |].
      destruct ps as [| p2 ps]; cbn [String.concat] in *; now rewrite <- IH.
  - induction s as [| c s IH]; [repeat constructor |].
    cbn [split]. destruct (Ascii.eqb c sep) eqn:Hc.
    + constructor; [reflexivity | exact IH].
    + destruct (split sep s) as [| p ps]; inversion IH; subst;
        constructor; cbn [occurs chr]; rewrite ?Hc; auto.
Qed.

Lemma schema_tool_composes_witness :
  Toolkit.InfoSnowflakeTableTool_run _ (stub warehouse) render "table1" fresh
  = (Return (sections render ["table1"] [id_frame]),
     snd (Toolkit.InfoSnowflakeTableTool_run _ (stub warehouse) render
            "table1" fresh))
  /\ Toolkit.InfoSnowflakeTableTool_run _ (stub warehouse) render " table2"
       (snd (Toolkit.InfoSnowflakeTableTool_run _ (stub warehouse) render
               "table1" fresh))
     = (Return (sections render [" table2"] [id_label_frame]),
        snd (Toolkit.InfoSnowflakeTableTool_run _ (stub warehouse) render
               " table2"
               (snd (Toolkit.InfoSnowflakeTableTool_run _ (stub warehouse)
                       render "table1" fresh))))
  /\ exists w',
       Toolkit.InfoSnowflakeTableTool_run _ (stub warehouse) render
         ("table1" ++ String comma " table2") fresh
       = (Return (sections render ["table1"] [id_frame]
                    ++ sections render [" table2"] [id_label_frame]), w')
       /\ conn_state w' = mkStub 2 None
       /\ requests w'
          = [ReadSql "DESCRIBE TABLE table1"; ReadSql "DESCRIBE TABLE  table2"].
Proof.
  split; [reflexivity |]. split; [reflexivity |].
  apply (schema_tool_composes _ (stub warehouse) render "table1" " table2"
           fresh (sections render ["table1"] [id_frame])
           (snd (Toolkit.InfoSnowflakeTableTool_run _ (stub warehouse) render
                   "table1" fresh))
           (sections render [" table2"] [id_label_frame])
           (snd (Toolkit.InfoSnowflakeTableTool_run _ (stub warehouse) render
                   " table2"
                   (snd (Toolkit.InfoSnowflakeTableTool_run _ (stub warehouse)
                           render "table1" fresh)))));
    reflexivity.
Defined.

Lemma schema_tool_first_part_fails_witness :
  Toolkit.InfoSnowflakeTableTool_run _ (stub warehouse) render "missing" fresh
  = (Raise (compilation_error "DESCRIBE TABLE missing"),
     snd (Toolkit.InfoSnowflakeTableTool_run _ (stub warehouse) render
            "missing" fresh))
  /\ exists w',
       Toolkit.InfoSnowflakeTableTool_run _ (stub warehouse) render
         ("missing" ++ String comma "table1") fresh
       = (Raise (compilation_error "DESCRIBE TABLE missing"), w')
       /\ requests w' = [ReadSql "DESCRIBE TABLE missing"].
Proof.
  split; [reflexivity |].
  apply (schema_tool_first_part_fails _ (stub warehouse) render "missing"
           "table1" fresh (compilation_error "DESCRIBE TABLE missing")
           (snd (Toolkit.InfoSnowflakeTableTool_run _ (stub warehouse) render
                   "missing" fresh))).
  reflexivity.
Defined.

(** The schema tool on the empty list asks for the description of the
    empty name. *)
Example empty_list_on_stub :
  Toolkit.InfoSnowflakeTableTool_run _ (stub warehouse) render EmptyString fresh
  = (Raise (compilation_error "DESCRIBE TABLE "),
     mkWorld (mkStub 0 None) [ReadSql "DESCRIBE TABLE "]
       [(INFO, "Getting schema for tables: ");
        (INFO, "Executing query: DESCRIBE TABLE ")]).
Proof. reflexivity. Qed.

(** ** Query Execution Tool: failures, and the log *)

Section ExecutionToolRuns.

Variable St : Type.
Variable conn : Connection St.
Variable to_string : DataFrame -> string.

(** X6.  When [pd.read_sql] refuses the query, the execution tool has
    submitted it once only: no cursor is opened and the query is not
    executed a second time. *)
Theorem execution_tool_stops_at_read_sql :
  forall query w e s1,
    read_sql conn query (conn_state w) = (Raise e, s1) ->
    exists w',
      Toolkit.QuerySQLDataBaseTool_run St conn to_string query w
      = (Return (inl ("Error: " ++ exc_str e), None), w')
      /\ requests w' = (requests w ++ [ReadSql query])%list
      /\ conn_state w' = s1.
Proof.
  intros query w e s1 H1.
  unfold Toolkit.QuerySQLDataBaseTool_run, bind, try_except.
  rewrite toolkit_logger_info, toolkit_pd_read_sql. simpl.
  rewrite H1. simpl. eexists; repeat split.
Qed.

(** X7.  When the cursor's [execute] refuses the query, the execution tool
    returns the error text and leaves the cursor it opened unclosed:
    [cursor.close()] is not reached. *)
Theorem execution_tool_leaves_cursor_open :
  forall query w df s1 s2 e s3,
    read_sql conn query (conn_state w) = (Return df, s1) ->
    cursor conn s1 = (Return tt, s2) ->
    execute conn query s2 = (Raise e, s3) ->
    exists w',
      Toolkit.QuerySQLDataBaseTool_run St conn to_string query w
      = (Return (inl ("Error: " ++ exc_str e), None), w')
      /\ requests w' = (requests w ++ [ReadSql query; Cursor; Execute query])%list
      /\ conn_state w' = s3.
Proof.
  intros query w df s1 s2 e s3 H1 H2 H3.
  unfold Toolkit.QuerySQLDataBaseTool_run, bind, try_except.
  rewrite toolkit_logger_info, toolkit_pd_read_sql. simpl.
  rewrite H1. simpl. unfold send. simpl. rewrite H2. simpl. rewrite H3. simpl.
  eexists; split; [reflexivity |]. split; [| reflexivity].
  now rewrite <- !app_assoc.
Qed.

Ltac log_follows :=
  do 2 eexists; split; [reflexivity |];
  unfold error_texts; simpl; rewrite !filter_app, !map_app; simpl;
  rewrite ?app_nil_r; reflexivity.

(** X8.  The error texts in the log follow the results: a run that
    returns an error text has logged this text, once, at level [ERROR];
    a run that returns rows has logged nothing at that level. *)
Theorem execution_tool_logs_its_errors :
  forall query w,
    exists out w',
      Toolkit.QuerySQLDataBaseTool_run St conn to_string query w
      = (Return out, w')
      /\ error_texts (log w') = (error_texts (log w) ++ error_of out)%list.
Proof.
  intros query w.
  unfold Toolkit.QuerySQLDataBaseTool_run, bind, try_except.
  rewrite toolkit_logger_info, toolkit_pd_read_sql. simpl.
  destruct (read_sql conn query (conn_state w)) as [[df | e] s1]; simpl;
    unfold send; simpl; [| log_follows].
  destruct (cursor conn s1) as [[[] | e] s2]; simpl; [| log_follows].
  destruct (execute conn query s2) as [[[] | e] s3]; simpl; [| log_follows].
  destruct (close conn s3) as [[[] | e] s4]; simpl; log_follows.
Qed.

(** X9.  The rows a run returns have been written to the log: the
    rendering of the whole frame is logged at level [INFO]. *)
Theorem execution_tool_logs_the_rows :
  forall query w df id w',
    Toolkit.QuerySQLDataBaseTool_run St conn to_string query w
    = (Return (inr df, id), w') ->
    In (INFO, "Query results:" ++ chr nl ++ to_string df) (log w').
Proof.
  intros query w df id w'.
  unfold Toolkit.QuerySQLDataBaseTool_run, bind, try_except.
  rewrite toolkit_logger_info, toolkit_pd_read_sql. cbn [fst snd conn_state].
  destruct (read_sql conn query (conn_state w)) as [[df' | e] s1];
    cbn [fst snd]; [| discriminate].
  rewrite toolkit_logger_info. unfold send. cbn [conn_state requests log].
  destruct (cursor conn s1) as [[[] | e] s2]; [| discriminate].
  cbn [conn_state requests log].
  destruct (execute conn query s2) as [[[] | e] s3]; [| discriminate].
  unfold read_sfqid. cbn [conn_state requests log].
  destruct (close conn s3) as [[[] | e] s4]; [| discriminate].
  rewrite toolkit_logger_info. unfold ret. cbn [conn_state requests log].
  intros E. injection E as <- _ <-. cbn [log].
  apply in_or_app. left. apply in_or_app. right. left. reflexivity.
Qed.

(** X10.  On a connection that assigns an identifier to every executed
    statement, the second element alone tells the two results apart: it is
    [None] exactly when the first element is an error text. *)
Theorem execution_tool_none_marks_error :
  assigns_statement_ids conn ->
  forall query w out w',
    Toolkit.QuerySQLDataBaseTool_run St conn to_string query w
    = (Return out, w') ->
    (snd out = None <-> exists msg, fst out = inl msg).
Proof.
  intros Hids query w out w' R.
  destruct (execution_decided St conn query (conn_state w))
    as [[e F] | [df [id S]]].
  - destruct (run_on_failure St conn to_string _ _ _ F) as [w'' R'].
    rewrite R in R'. injection R' as -> _. simpl. split; eauto.
  - destruct (run_on_success St conn to_string _ _ _ _ S) as [w'' [R' _]].
    rewrite R in R'. injection R' as -> _. simpl.
    destruct S as [s1 s2 s3 s4 _ _ H3 -> _].
    destruct (Hids _ _ _ H3) as [i [Hi _]]. rewrite Hi.
    split; [discriminate | intros [msg M]; discriminate].
Qed.

End ExecutionToolRuns.

Lemma execution_tool_stops_at_read_sql_witness :
  read_sql (stub warehouse) "SELEC 1" (conn_state fresh)
  = (Raise (compilation_error "SELEC 1"), mkStub 0 None)
  /\ exists w',
       Toolkit.QuerySQLDataBaseTool_run _ (stub warehouse) render "SELEC 1" fresh
       = (Return (inl ("Error: " ++ exc_str (compilation_error "SELEC 1")), None),
          w')
       /\ requests w' = (requests fresh ++ [ReadSql "SELEC 1"])%list
       /\ conn_state w' = mkStub 0 None.
Proof.
  split; [reflexivity |].
  apply (execution_tool_stops_at_read_sql _ (stub warehouse) render "SELEC 1"
           fresh (compilation_error "SELEC 1") (mkStub 0 None)).
  reflexivity.
Defined.

Lemma execution_tool_leaves_cursor_open_witness :
  read_sql refuses_execute "SELECT 1" (conn_state fresh)
  = (Return one_frame, mkStub 1 None)
  /\ cursor refuses_execute (mkStub 1 None) = (Return tt, mkStub 1 None)
  /\ execute refuses_execute "SELECT 1" (mkStub 1 None)
     = (Raise (mkExc "ProgrammingError" "Insufficient privileges"), mkStub 1 None)
  /\ exists w',
       Toolkit.QuerySQLDataBaseTool_run _ refuses_execute render "SELECT 1" fresh
       = (Return (inl ("Error: " ++ "Insufficient privileges"), None), w')
       /\ requests w'
          = (requests fresh
               ++ [ReadSql "SELECT 1"; Cursor; Execute "SELECT 1"])%list
       /\ conn_state w' = mkStub 1 None.
Proof.
  split; [reflexivity |]. split; [reflexivity |]. split; [reflexivity |].
  apply (execution_tool_leaves_cursor_open _ refuses_execute render "SELECT 1"
           fresh one_frame (mkStub 1 None) (mkStub 1 None)
           (mkExc "ProgrammingError" "Insufficient privileges") (mkStub 1 None));
    reflexivity.
Defined.

Lemma execution_tool_logs_the_rows_witness :
  Toolkit.QuerySQLDataBaseTool_run _ (stub warehouse) render "SELECT 1" fresh
  = (Return (inr one_frame, Some "stub-id-2"),
     snd (Toolkit.QuerySQLDataBaseTool_run _ (stub warehouse) render
            "SELECT 1" fresh))
  /\ In (INFO, "Query results:" ++ chr nl ++ render one_frame)
       (log (snd (Toolkit.QuerySQLDataBaseTool_run _ (stub warehouse) render
                    "SELECT 1" fresh))).
Proof.
  split; [reflexivity |].
  apply (execution_tool_logs_the_rows _ (stub warehouse) render "SELECT 1"
           fresh one_frame (Some "stub-id-2")).
  reflexivity.
Defined.

Lemma execution_tool_none_marks_error_witness :
  assigns_statement_ids (stub warehouse)
  /\ Toolkit.QuerySQLDataBaseTool_run _ (stub warehouse) render "SELEC 1" fresh
     = (Return (inl "Error: SQL compilation error: SELEC 1", None),
        snd (Toolkit.QuerySQLDataBaseTool_run _ (stub warehouse) render
               "SELEC 1" fresh))
  /\ (snd (@inl string DataFrame "Error: SQL compilation error: SELEC 1",
           @None string) = None
      <-> exists msg,
            fst (@inl string DataFrame "Error: SQL compilation error: SELEC 1",
                 @None string) = inl msg).
Proof.
  split; [apply stub_assigns_ids |]. split; [reflexivity |].
  apply (execution_tool_none_marks_error _ (stub warehouse) render
           (stub_assigns_ids warehouse) "SELEC 1" fresh
           (inl "Error: SQL compilation error: SELEC 1", None)
           (snd (Toolkit.QuerySQLDataBaseTool_run _ (stub warehouse) render
                   "SELEC 1" fresh))).
  reflexivity.
Defined.

(** ** Query Checker Tool: failures *)

Section CheckerToolRuns.

Variable St : Type.
Variable conn : Connection St.

(** X11.  The checker does not catch what the connection raises: when the
    completion request is refused, the run raises the connection's
    exception, where the execution tool would return an error text. *)
Theorem checker_raises_connection_failure :
  forall query w e s1,
    read_sql conn (request_of query) (conn_state w) = (Raise e, s1) ->
    exists w',
      Toolkit.QuerySQLCheckerTool_run St conn query w = (Raise e, w')
      /\ requests w' = (requests w ++ [ReadSql (request_of query)])%list
      /\ conn_state w' = s1.
Proof.
  intros query w e s1 A.
  destruct (checker_run St conn query w) as [lg R].
  rewrite A in R. cbn [snd] in R.
  eexists; split; [exact R |]. split; reflexivity.
Qed.


(** X18.  On an endpoint that hands back the query as the request carries
    it, backslashes included, the checker returns the escaped query, and
    checking this output again returns the query escaped twice. *)
Theorem checker_escapes_again_on_verbatim_endpoint :
  forall query,
    repeats_escaped conn query ->
    repeats_escaped conn (Toolkit.escape query) ->
    forall w,
      exists w1 w2,
        Toolkit.QuerySQLCheckerTool_run St conn query w
        = (Return (VStr (Toolkit.escape query)), w1)
        /\ Toolkit.QuerySQLCheckerTool_run St conn (Toolkit.escape query) w1
           = (Return (VStr (Toolkit.escape (Toolkit.escape query))), w2).
Proof.
  intros query E1 E2 w.
  destruct (E1 (conn_state w)) as [df [s1 [A C]]].
  destruct (checker_returns_cell St conn query w df s1 _ A C) as [w1 [R1 _]].
  destruct (E2 (conn_state w1)) as [df' [s2 [A' C']]].
  destruct (checker_returns_cell St conn _ w1 df' s2 _ A' C') as [w2 [R2 _]].
  exists w1, w2. auto.
Qed.

End CheckerToolRuns.

Lemma checker_raises_connection_failure_witness :
  read_sql (stub warehouse) (request_of "SELECT 1") (conn_state fresh)
  = (Raise (compilation_error (request_of "SELECT 1")), mkStub 0 None)
  /\ exists w',
       Toolkit.QuerySQLCheckerTool_run _ (stub warehouse) "SELECT 1" fresh
       = (Raise (compilation_error (request_of "SELECT 1")), w')
       /\ requests w' = (requests fresh ++ [ReadSql (request_of "SELECT 1")])%list
       /\ conn_state w' = mkStub 0 None.
Proof.
  split; [reflexivity |].
  apply (checker_raises_connection_failure _ (stub warehouse) "SELECT 1" fresh
           (compilation_error (request_of "SELECT 1")) (mkStub 0 None)).
  reflexivity.
Defined.


(** ** The escaping step *)

Lemma escape_cases c q :
  (c = squote
   /\ Toolkit.escape (String c q)
      = String backslash (String squote (Toolkit.escape q)))
  \/ (c = dquote
      /\ Toolkit.escape (String c q)
         = String backslash (String dquote (Toolkit.escape q)))
  \/ (Ascii.eqb c squote = false /\ Ascii.eqb c dquote = false
      /\ Toolkit.escape (String c q) = String c (Toolkit.escape q)).
Proof.
  destruct (Ascii.eqb c squote) eqn:Hs.
  { apply Ascii.eqb_eq in Hs; subst c. left. split; [reflexivity |].
    apply escape_squote. }
  destruct (Ascii.eqb c dquote) eqn:Hd.
  { apply Ascii.eqb_eq in Hd; subst c. right; left. split; [reflexivity |].
    apply escape_dquote. }
  right; right. split; [reflexivity |]. split; [reflexivity |].
  now apply escape_other.
Qed.

Lemma quotes_escape q : quotes (Toolkit.escape q) = quotes q.
Proof.
  unfold quotes. induction q as [| c q IH]; [reflexivity |].
  destruct (escape_cases c q) as [[-> E] | [[-> E] | [Hs [Hd E]]]]; rewrite E.
  - cbn [count_char]. cbn. cbn in IH. lia.
  - cbn [count_char]. cbn. cbn in IH. lia.
  - cbn [count_char]. rewrite Hs, Hd. lia.
Qed.

Lemma length_escape q :
  String.length (Toolkit.escape q) = String.length q + quotes q.
Proof.
  unfold quotes. induction q as [| c q IH]; [reflexivity |].
  destruct (escape_cases c q) as [[-> E] | [[-> E] | [Hs [Hd E]]]]; rewrite E.
  - cbn [String.length count_char]. cbn. cbn in IH. lia.
  - cbn [String.length count_char]. cbn. cbn in IH. lia.
  - cbn [String.length count_char]. rewrite Hs, Hd. lia.
Qed.

(** X13.  The escaping lengthens a query by one character for each of its
    quotes, single or double, and by nothing else. *)
Theorem escape_adds_one_character_per_quote :
  forall query,
    String.length (Toolkit.escape query) = String.length query + quotes query.
Proof. exact length_escape. Qed.

Lemma count_zero_absent c s : count_char c s = 0 -> occurs c s = false.
Proof.
  induction s as [| d s IH]; [reflexivity |].
  cbn [count_char occurs]. destruct (Ascii.eqb d c); [discriminate |].
  exact IH.
Qed.

Lemma escape_fixed_iff q : Toolkit.escape q = q <-> quotes q = 0.
Proof.
  split.
  - intros E. apply (f_equal String.length) in E.
    rewrite length_escape in E. lia.
  - unfold quotes. intros Z.
    apply escape_without_quotes; apply count_zero_absent; lia.
Qed.

(** X15.  The escaping leaves a query as it is exactly when the query has
    no quote, and it is idempotent on exactly these queries: escaping an
    escaped query with a quote adds backslashes again. *)
Theorem escape_idempotent_iff_no_quote :
  forall query,
    (Toolkit.escape query = query <-> quotes query = 0)
    /\ (Toolkit.escape (Toolkit.escape query) = Toolkit.escape query
        <-> quotes query = 0).
Proof.
  intros query. split; [apply escape_fixed_iff |].
  rewrite escape_fixed_iff, quotes_escape. reflexivity.
Qed.

Lemma quotes_follow_backslash_escape q :
  forall b, quotes_follow_backslash b (Toolkit.escape q) = true.
Proof.
  induction q as [| c q IH]; intros b; [reflexivity |].
  destruct (escape_cases c q) as [[-> E] | [[-> E] | [Hs [Hd E]]]]; rewrite E.
  - cbn. apply IH.
  - cbn. apply IH.
  - cbn [quotes_follow_backslash]. unfold is_quote. rewrite Hs, Hd.
    cbn [orb andb]. apply IH.
Qed.

(** X16.  In the escaped query every quote, single or double, stands
    directly after a backslash; the escaped query never begins with a
    quote. *)
Theorem escaped_quotes_follow_backslash :
  forall query, quotes_follow_backslash false (Toolkit.escape query) = true.
Proof. intros query. apply quotes_follow_backslash_escape. Qed.

(** X14.  The request determines the query: two queries for which the
    checker sends the same request are the same query. *)
Theorem request_determines_query :
  forall q1 q2, request_of q1 = request_of q2 -> q1 = q2.
Proof.
  intros q1 q2 E.
  pose proof (shown_query_request q1) as H1.
  rewrite E, shown_query_request in H1. now injection H1.
Qed.

Lemma request_determines_query_witness :
  request_of "SELECT 1" = request_of "SELECT 1"
  /\ "SELECT 1" = "SELECT 1".
Proof.
  split; [reflexivity |].
  apply (request_determines_query "SELECT 1" "SELECT 1"). reflexivity.
Defined.

(** ** The stub endpoint that repeats the request's text *)

Lemma shown_text_request q : shown_text (request_of q) = Some (Toolkit.escape q).
Proof.
  unfold shown_text.
  now rewrite request_of_parts, strip_prefix_append, strip_suffix_append.
Qed.

Lemma verbatim_repeats q : repeats_escaped verbatim q.
Proof.
  intros s. cbn [read_sql verbatim]. rewrite shown_text_request.
  do 2 eexists; split; reflexivity.
Qed.

Lemma checker_escapes_again_on_verbatim_endpoint_witness :
  repeats_escaped verbatim "SELECT 'a'"
  /\ repeats_escaped verbatim (Toolkit.escape "SELECT 'a'")
  /\ exists w1 w2,
       Toolkit.QuerySQLCheckerTool_run _ verbatim "SELECT 'a'" quiet
       = (Return (VStr (Toolkit.escape "SELECT 'a'")), w1)
       /\ Toolkit.QuerySQLCheckerTool_run _ verbatim
            (Toolkit.escape "SELECT 'a'") w1
          = (Return (VStr (Toolkit.escape (Toolkit.escape "SELECT 'a'"))), w2).
Proof.
  split; [apply verbatim_repeats |]. split; [apply verbatim_repeats |].
  exact (checker_escapes_again_on_verbatim_endpoint _ verbatim "SELECT 'a'"
           (verbatim_repeats "SELECT 'a'")
           (verbatim_repeats (Toolkit.escape "SELECT 'a'")) quiet).
Defined.

(** On the stub, the output of the second check is not the output of the
    first. *)
Example verbatim_twice :
  Toolkit.escape "SELECT 'a'" = "SELECT " ++ String backslash "'a" ++ String backslash "'"
  /\ Toolkit.escape (Toolkit.escape "SELECT 'a'")
     = "SELECT " ++ String backslash (String backslash "'a")
         ++ String backslash (String backslash "'").
Proof. split; reflexivity. Qed.

(** ** Try.py: the completion call with pandas imported *)

Section TryInference.

Variable St : Type.
Variable connect : St -> Outcome (Try.Session St) * St.

Lemma try_request_text prompt :
  "SELECT SNOWFLAKE.CORTEX.COMPLETE('snowflake-arctic', '" ++ prompt ++ "');"
  = Toolkit.cortex_open ++ prompt ++ Toolkit.cortex_close.
Proof. reflexivity. Qed.

(** X19.  [cortex_inference], which has pandas imported, does what the
    completion client of [Agent.py] is meant to do: on a connection that
    opens, answers and closes, it sends one request, the prompt put as it
    is between the two fixed parts of the request, closes the connection
    and returns the first cell of the answer. *)
Theorem cortex_inference_returns_cell :
  forall prompt w con s1 df s2 s3 v,
    connect (conn_state w) = (Return con, s1) ->
    read_sql (Try.session_conn con)
      (Toolkit.cortex_open ++ prompt ++ Toolkit.cortex_close) s1
    = (Return df, s2) ->
    Try.session_close con s2 = (Return tt, s3) ->
    first_cell df = Some v ->
    Try.cortex_inference St connect prompt w
    = (Return v,
       mkWorld s3
         (requests w
            ++ [ReadSql (Toolkit.cortex_open ++ prompt ++ Toolkit.cortex_close)])
         (log w)).
Proof.
  intros prompt w con s1 df s2 s3 v C R Cl F.
  unfold Try.cortex_inference. rewrite try_request_text.
  unfold bind, Try.on_state, Try.pd_read_sql, bind, send, iloc00.
  cbn in *. rewrite C. cbn. rewrite R. cbn. rewrite Cl, F. reflexivity.
Qed.

(** X20.  When [pd.read_sql] raises, [cortex_inference] raises the same
    exception and does not close the connection it opened: the connector
    is left in the state of the failed request. *)
Theorem cortex_inference_leaves_connection_open :
  forall prompt w con s1 e s2,
    connect (conn_state w) = (Return con, s1) ->
    read_sql (Try.session_conn con)
      (Toolkit.cortex_open ++ prompt ++ Toolkit.cortex_close) s1
    = (Raise e, s2) ->
    Try.cortex_inference St connect prompt w
    = (Raise e,
       mkWorld s2
         (requests w
            ++ [ReadSql (Toolkit.cortex_open ++ prompt ++ Toolkit.cortex_close)])
         (log w)).
Proof.
  intros prompt w con s1 e s2 C R.
  unfold Try.cortex_inference. rewrite try_request_text.
  unfold bind, Try.on_state, Try.pd_read_sql, bind, send.
  cbn in *. rewrite C. cbn. rewrite R. reflexivity.
Qed.


End TryInference.

Lemma cortex_inference_returns_cell_witness :
  pool_connect (always one_frame) (conn_state idle)
  = (Return (pool_session (always one_frame)), mkPool 1 0)
  /\ read_sql (Try.session_conn (pool_session (always one_frame)))
       (Toolkit.cortex_open ++ "Hello" ++ Toolkit.cortex_close) (mkPool 1 0)
     = (Return one_frame, mkPool 1 0)
  /\ Try.session_close (pool_session (always one_frame)) (mkPool 1 0)
     = (Return tt, mkPool 1 1)
  /\ first_cell one_frame = Some (VNum 1)
  /\ Try.cortex_inference Pool (pool_connect (always one_frame)) "Hello" idle
     = (Return (VNum 1),
        mkWorld (mkPool 1 1)
          (requests idle
             ++ [ReadSql (Toolkit.cortex_open ++ "Hello" ++ Toolkit.cortex_close)])
          (log idle)).
Proof.
  split; [reflexivity |]. split; [reflexivity |]. split; [reflexivity |].
  split; [reflexivity |].
  apply (cortex_inference_returns_cell Pool (pool_connect (always one_frame))
           "Hello" idle (pool_session (always one_frame)) (mkPool 1 0)
           one_frame (mkPool 1 0) (mkPool 1 1) (VNum 1)); reflexivity.
Defined.

Lemma cortex_inference_leaves_connection_open_witness :
  pool_connect warehouse (conn_state idle)
  = (Return (pool_session warehouse), mkPool 1 0)
  /\ read_sql (Try.session_conn (pool_session warehouse))
       (Toolkit.cortex_open ++ "Hello" ++ Toolkit.cortex_close) (mkPool 1 0)
     = (Raise (compilation_error
                 (Toolkit.cortex_open ++ "Hello" ++ Toolkit.cortex_close)),
        mkPool 1 0)
  /\ Try.cortex_inference Pool (pool_connect warehouse) "Hello" idle
     = (Raise (compilation_error
                 (Toolkit.cortex_open ++ "Hello" ++ Toolkit.cortex_close)),
        mkWorld (mkPool 1 0)
          (requests idle
             ++ [ReadSql (Toolkit.cortex_open ++ "Hello" ++ Toolkit.cortex_close)])
          (log idle)).
Proof.
  split; [reflexivity |]. split; [reflexivity |].
  apply (cortex_inference_leaves_connection_open Pool (pool_connect warehouse)
           "Hello" idle (pool_session warehouse) (mkPool 1 0)
           (compilation_error
              (Toolkit.cortex_open ++ "Hello" ++ Toolkit.cortex_close))
           (mkPool 1 0)); reflexivity.
Defined.


(** ** The prompt of the completion call, as a string constant *)

(** X22.  The completion call puts the prompt between the quotes of its
    request as it is.  A single quote of the prompt that is not doubled
    and has only plain text before it closes the string constant: the
    constant is the text before the quote, and what follows it is left over
    as text of the statement. *)
Theorem unescaped_quote_closes_constant :
  forall a c b,
    plain a = true ->
    Ascii.eqb c squote = false ->
    scan_literal ((a ++ String squote (String c b)) ++ Toolkit.cortex_close)
    = Some (a, String c b ++ Toolkit.cortex_close)
    /\ ~ one_literal (a ++ String squote (String c b)).
Proof.
  intros a c b Pa Hc.
  assert (S : scan_literal
                ((a ++ String squote (String c b)) ++ Toolkit.cortex_close)
              = Some (a, String c b ++ Toolkit.cortex_close)).
  { rewrite append_assoc, scan_plain by exact Pa.
    cbn [append scan_literal]. rewrite Hc. cbn. now rewrite append_nil_r. }
  split; [exact S |].
  unfold one_literal. rewrite S. intros E. injection E as E _.
  apply (f_equal String.length) in E. rewrite length_append in E.
  cbn [String.length] in E. lia.
Qed.

Lemma unescaped_quote_closes_constant_witness :
  plain "What" = true
  /\ Ascii.eqb "s" squote = false
  /\ scan_literal (("What" ++ String squote (String "s" " up?"))
                     ++ Toolkit.cortex_close)
     = Some ("What", String "s" " up?" ++ Toolkit.cortex_close)
  /\ ~ one_literal ("What" ++ String squote (String "s" " up?")).
Proof.
  split; [reflexivity |]. split; [reflexivity |].
  apply (unescaped_quote_closes_constant "What" "s" " up?"); reflexivity.
Defined.
